(** * @nextcloud/files: the Node model and the two registries

    A shallow embedding of [lib/files/node.ts] and [lib/fileAction.ts],
    together with the validator and the template registry they rely on,
    followed by the properties stated for them.

    JavaScript strings are modelled as [string]; indices and lengths that
    the code computes with (results of [indexOf], arguments of [slice]) are
    in [Z], so that the value -1 and negative offsets read as in the code. *)

From Stdlib Require Import String Ascii List ZArith Lia Bool Arith.
Import ListNotations.
Local Open Scope string_scope.

(** ** JavaScript string operations used by the code *)

Module JsString.

Definition isSlash (c : ascii) : bool := Ascii.eqb c "/".

Fixpoint take (n : nat) (s : string) : string :=
  match n, s with
  | S n', String c s' => String c (take n' s')
  | _, _ => ""
  end.

Fixpoint drop (n : nat) (s : string) : string :=
  match n, s with
  | S n', String _ s' => drop n' s'
  | _, _ => s
  end.

(** [s.startsWith(p)] *)
Fixpoint startsWith (s p : string) : bool :=
  match p, s with
  | EmptyString, _ => true
  | String a p', String b s' => Ascii.eqb a b && startsWith s' p'
  | String _ _, EmptyString => false
  end.

(** Position of the first occurrence of [p] in [s], scanning from the
    left, as [indexOf] and [includes] search for it. *)
Fixpoint firstOccurrence (s p : string) : option nat :=
  if startsWith s p then Some 0
  else match s with
       | EmptyString => None
       | String _ s' => option_map S (firstOccurrence s' p)
       end.

(** [s.indexOf(p)]: -1 when [p] does not occur. *)
Definition indexOf (s p : string) : Z :=
  match firstOccurrence s p with
  | Some i => Z.of_nat i
  | None => (-1)%Z
  end.

(** [s.includes(p)] *)
Definition includes (s p : string) : bool :=
  match firstOccurrence s p with
  | Some _ => true
  | None => false
  end.

(** [s.slice(start)]: a negative [start] counts from the end, and the
    start is clamped to the string. *)
Definition slice (s : string) (start : Z) : string :=
  let len := Z.of_nat (String.length s) in
  let from := if (start <? 0)%Z then Z.max (len + start) 0 else Z.min start len in
  drop (Z.to_nat from) s.

(** [s.charCodeAt(i) === 47] *)
Definition slashAt (s : string) (i : nat) : bool :=
  match String.get i s with
  | Some c => isSlash c
  | None => false
  end.

Fixpoint endsWithSlash (s : string) : bool :=
  match s with
  | EmptyString => false
  | String c EmptyString => isSlash c
  | String _ s' => endsWithSlash s'
  end.

(** All characters but the last. *)
Fixpoint init (s : string) : string :=
  match s with
  | EmptyString => ""
  | String _ EmptyString => ""
  | String c s' => String c (init s')
  end.

(** [s.replace(/\/$/i, '')]: the pattern matches one slash standing at
    the very end of the string, and that slash is removed. *)
Definition replaceEndingSlash (s : string) : string :=
  if endsWithSlash s then init s else s.

(** A character that [.] does not match in a regular expression. *)
Definition isLineTerminator (c : ascii) : bool :=
  Ascii.eqb c "010" || Ascii.eqb c "013".

Fixpoint noLineTerminator (s : string) : bool :=
  match s with
  | EmptyString => true
  | String c s' => negb (isLineTerminator c) && noLineTerminator s'
  end.

(** [s.replace(/^(.+)\/$/, '$1')]: when the whole string is one or more
    characters that [.] matches followed by a final slash, the result is
    the string without that slash; otherwise the string is unchanged. *)
Definition replaceRootSlash (s : string) : string :=
  if endsWithSlash s && negb (init s =? "") && noLineTerminator (init s)
  then init s
  else s.

(** [s.replace(/\/\//g, '/')]: every pair of slashes met from the left
    becomes one slash; the search resumes after the pair. *)
Fixpoint replaceDoubleSlashes (s : string) : string :=
  match s with
  | EmptyString => ""
  | String c s' =>
      match s' with
      | String c' s'' =>
          if isSlash c && isSlash c'
          then String "/" (replaceDoubleSlashes s'')
          else String c (replaceDoubleSlashes s')
      | EmptyString => String c ""
      end
  end.

(** Suffix relation on strings. *)
Definition isSuffixOf (t s : string) : Prop := exists pre, s = pre ++ t.

End JsString.

(** ** The POSIX functions of the [path] module *)

Module path.
Import JsString.

(** The loop of [dirname]: [i] runs from the last index down to 1 and
    stops at the first slash that follows a non-slash character. *)
Fixpoint dirname_loop (p : string) (i : nat) (matchedSlash : bool) : option nat :=
  match i with
  | O => None
  | S i' =>
      if slashAt p i
      then if negb matchedSlash then Some i else dirname_loop p i' matchedSlash
      else dirname_loop p i' false
  end.

Definition dirname (p : string) : string :=
  if (String.length p =? 0)%nat then "."
  else
    let hasRoot := slashAt p 0 in
    match dirname_loop p (String.length p - 1) true with
    | None => if hasRoot then "/" else "."
    | Some e => if hasRoot && (e =? 1)%nat then "//" else take e p
    end.

(** The loop of [basename] without a suffix: [k] is the number of
    characters still to visit, so the index visited is [k - 1]; the
    result is the pair [(start, end)], [end] absent while no
    non-slash character has been seen. *)
Fixpoint basename_loop (p : string) (k : nat) (matchedSlash : bool)
         (e : option nat) : nat * option nat :=
  match k with
  | O => (0%nat, e)
  | S i =>
      if slashAt p i
      then if negb matchedSlash then (S i, e) else basename_loop p i matchedSlash e
      else match e with
           | None => basename_loop p i false (Some (S i))
           | Some _ => basename_loop p i matchedSlash e
           end
  end.

Definition basename (p : string) : string :=
  match basename_loop p (String.length p) true None with
  | (_, None) => ""
  | (start, Some e) => take (e - start) (drop start p)
  end.

End path.

(** ** Regular expressions

    A regular expression is taken through what the code asks of it: a
    match attempted at one position of the input.  [exec_at re s q] is the
    outcome of matching [re] against [s] starting exactly at index [q]:
    the index where the match ends and the captured groups, or nothing. *)

Record RegExp : Type := {
  exec_at : string -> nat -> option (nat * list (option string))
}.

(** A match ends at or after the position where it starts, and inside the
    input. *)
Definition RegExp_wf (re : RegExp) : Prop :=
  forall s q e caps, exec_at re s q = Some (e, caps) ->
    (q <= e /\ e <= String.length s)%nat.

Module JsRegExp.
Import JsString.

(** The search of [String.prototype.match] for a pattern without the
    global or sticky flag: the first index, from the left, where the
    pattern matches; [k] counts the indices still to try. *)
Fixpoint search_from (re : RegExp) (s : string) (q k : nat) : option (nat * nat) :=
  match exec_at re s q with
  | Some (e, _) => Some (q, e)
  | None => match k with
            | O => None
            | S k' => search_from re s (S q) k'
            end
  end.

Definition search (re : RegExp) (s : string) : option (nat * nat) :=
  search_from re s 0 (String.length s).

(** [s.match(re) !== null] *)
Definition matches (re : RegExp) (s : string) : bool :=
  match search re s with Some _ => true | None => false end.

(** The loop of [String.prototype.split] with a regular expression as
    separator: [p] is the end of the last separator taken, [q] the index
    being tried.  A separator found at [q] ends at [e]; an empty one
    standing at [p] is skipped.  Each separator taken contributes the
    text before it, then its captured groups. [fuel] bounds the number
    of rounds. *)
Fixpoint split_loop (re : RegExp) (s : string) (fuel p q : nat)
  : list (option string) :=
  match fuel with
  | O => [Some (drop p s)]
  | S fuel' =>
      if (q <? String.length s)%nat then
        match exec_at re s q with
        | None => split_loop re s fuel' p (q + 1)
        | Some (e0, caps) =>
            let e := Nat.min e0 (String.length s) in
            if (e =? p)%nat then split_loop re s fuel' p (q + 1)
            else Some (take (q - p) (drop p s)) :: caps ++ split_loop re s fuel' e e
        end
      else [Some (drop p s)]
  end.

(** [s.split(re)].  On the empty string the result is empty when the
    pattern matches it and the string itself otherwise.  Each round of
    the loop either advances [q] or moves [p] up to [q], so twice the
    length of the input, plus one, is enough rounds. *)
Definition split (re : RegExp) (s : string) : list (option string) :=
  if (String.length s =? 0)%nat then
    match exec_at re s 0 with
    | Some _ => []
    | None => [Some s]
    end
  else split_loop re s (2 * String.length s + 1) 0 0.

(** [array.pop()]: the last element, [undefined] on an empty array. *)
Definition pop (a : list (option string)) : option string :=
  List.last a None.

(** Case-insensitive comparison of two characters (flag [i]). *)
Definition lower (c : ascii) : ascii :=
  let n := nat_of_ascii c in
  if (65 <=? n)%nat && (n <=? 90)%nat then ascii_of_nat (n + 32) else c.

Fixpoint startsWith_ci (s p : string) : bool :=
  match p, s with
  | EmptyString, _ => true
  | String a p', String b s' => Ascii.eqb (lower a) (lower b) && startsWith_ci s' p'
  | String _ _, EmptyString => false
  end.

(** [/(remote|public)\.php\/(web)?dav/i] attempted at the start of [s]:
    the first group is [remote] or [public], then [.php/], then the
    optional group [web], then [dav].  The result is the length of the
    match and the text of the two groups. *)
Definition knownDavService_here (s : string) : option (nat * list (option string)) :=
  let group1 :=
    if startsWith_ci s "remote" then true
    else startsWith_ci s "public" in
  if group1 && startsWith_ci (drop 6 s) ".php/" then
    let rest := drop 11 s in
    if startsWith_ci rest "web" && startsWith_ci (drop 3 rest) "dav"
    then Some (17%nat, [Some (take 6 s); Some (take 3 rest)])
    else if startsWith_ci rest "dav"
    then Some (14%nat, [Some (take 6 s); None])
    else None
  else None.

(** A hand-written matcher for a literal pattern such as
    [/test\.php\/dav/], as passed for a custom service. *)
Definition literal (lit : string) : RegExp :=
  {| exec_at := fun s q =>
       if startsWith (drop q s) lit && (q <=? String.length s)%nat
       then Some ((q + String.length lit)%nat, [])
       else None |}.

End JsRegExp.

(** [Node._knownDavService], the default pattern. *)
Definition knownDavService : RegExp :=
  {| exec_at := fun s q =>
       if (q <=? String.length s)%nat then
         match JsRegExp.knownDavService_here (JsString.drop q s) with
         | Some (len, caps) => Some ((q + len)%nat, caps)
         | None => None
         end
       else None |}.

(** ** URLs

    [new URL(s)] is the platform's parser.  It is modelled on the URLs
    that it reads as they are written: [scheme://host/path?query#fragment]
    with a host made of labels of letters, digits and hyphens, the last
    label starting with a letter, and with a path that has no dot segment;
    and [scheme:rest] for a scheme that is not special.  On these the path
    name is the text of the input from the first slash after the host up
    to the query or the fragment, and [/] when that text is empty and the
    scheme is special.

    [parse] gives nothing on every other input.  Those are the inputs on
    which the parser throws, and also inputs that it accepts and rewrites
    (characters it drops or escapes, dot segments it resolves, hosts it
    converts, ports, credentials, the scheme [file]): they are outside the
    model.  The model of the constructor so refuses some bags that the
    program accepts. *)

Module URL.
Import JsString.

Record t : Type := { protocol : string; host : string; pathname : string }.

Definition isAlpha (c : ascii) : bool :=
  let n := nat_of_ascii (JsRegExp.lower c) in (97 <=? n)%nat && (n <=? 122)%nat.

Definition isDigit (c : ascii) : bool :=
  let n := nat_of_ascii c in (48 <=? n)%nat && (n <=? 57)%nat.

Definition isSchemeChar (c : ascii) : bool :=
  isAlpha c || isDigit c || Ascii.eqb c "+" || Ascii.eqb c "-" || Ascii.eqb c ".".

(** Splits [s] at the first character satisfying [stop]. *)
Fixpoint span_until (stop : ascii -> bool) (s : string) : string * string :=
  match s with
  | EmptyString => ("", "")
  | String c s' =>
      if stop c then ("", s)
      else let (a, b) := span_until stop s' in (String c a, b)
  end.

Fixpoint lowercase (s : string) : string :=
  match s with
  | EmptyString => ""
  | String c s' => String (JsRegExp.lower c) (lowercase s')
  end.

Definition isQueryOrFragment (c : ascii) : bool :=
  Ascii.eqb c "?" || Ascii.eqb c "#".

(** A character that the parser keeps as it is. *)
Definition isPlain (c : ascii) : bool :=
  let n := nat_of_ascii c in
  (32 <? n)%nat && (n <? 127)%nat
  && negb (Ascii.eqb c "034" || Ascii.eqb c "<" || Ascii.eqb c ">" || Ascii.eqb c "`"
           || Ascii.eqb c "{" || Ascii.eqb c "}" || Ascii.eqb c "092" || Ascii.eqb c "^"
           || Ascii.eqb c "|").

Fixpoint allPlain (s : string) : bool :=
  match s with
  | EmptyString => true
  | String c s' => isPlain c && allPlain s'
  end.

(** The pieces of [s] between the occurrences of [sep]. *)
Fixpoint splitOn (sep : ascii) (s : string) : list string :=
  match s with
  | EmptyString => [""]
  | String c s' =>
      if Ascii.eqb c sep then "" :: splitOn sep s'
      else match splitOn sep s' with
           | piece :: pieces => String c piece :: pieces
           | [] => [String c ""]
           end
  end.

Fixpoint allChars (p : ascii -> bool) (s : string) : bool :=
  match s with
  | EmptyString => true
  | String c s' => p c && allChars p s'
  end.

Definition startsWithLetter (s : string) : bool :=
  match s with
  | String c _ => isAlpha c
  | EmptyString => false
  end.

(** A host that the parser keeps, but for the case of its letters: labels
    of letters, digits and hyphens, none empty and none in the [xn--]
    form, the last one starting with a letter, so that it is not read as
    a number. *)
Definition plainHost (h : string) : bool :=
  let labels := splitOn "." h in
  forallb (fun l => negb (l =? "")
                    && allChars (fun c => isAlpha c || isDigit c || Ascii.eqb c "-") l
                    && negb (startsWith (lowercase l) "xn--"))
          labels
  && startsWithLetter (List.last labels "").

(** A segment that the parser resolves: one or two dots, each written as
    a dot or as [%2e]. *)
Definition isDotSegment (segment : string) : bool :=
  let l := lowercase segment in
  (l =? ".") || (l =? "..") || (l =? "%2e")
  || (l =? ".%2e") || (l =? "%2e.") || (l =? "%2e%2e").

Definition noDotSegment (p : string) : bool :=
  forallb (fun segment => negb (isDotSegment segment)) (splitOn "/" p).

(** The schemes whose URLs always have a host. *)
Definition isSpecial (scheme : string) : bool :=
  (scheme =? "http") || (scheme =? "https") || (scheme =? "ftp")
  || (scheme =? "ws") || (scheme =? "wss") || (scheme =? "file").

Definition parse (s : string) : option t :=
  match s with
  | EmptyString => None
  | String c0 _ =>
      if negb (isAlpha c0 && allPlain s) then None
      else
        let (scheme, rest) := span_until (fun c => negb (isSchemeChar c)) s in
        match rest with
        | EmptyString => None
        | String colon after =>
            if negb (Ascii.eqb colon ":") then None
            else if lowercase scheme =? "file" then None
            else if startsWith after "//" then
              let (authority, tail) :=
                span_until (fun c => isSlash c || isQueryOrFragment c) (drop 2 after) in
              let (p, _) := span_until isQueryOrFragment tail in
              if plainHost authority && noDotSegment p then
                Some {| protocol := lowercase scheme ++ ":";
                        host := lowercase authority;
                        pathname := if (p =? "") && isSpecial (lowercase scheme)
                                    then "/" else p |}
              else None
            else if isSpecial (lowercase scheme) then None
            else
              let (p, _) := span_until isQueryOrFragment after in
              if noDotSegment p then
                Some {| protocol := lowercase scheme ++ ":"; host := ""; pathname := p |}
              else None
        end
  end.

End URL.

(** ** Values, results and methods *)

(** Milliseconds since the epoch stand for a [Date]. *)
Definition Date := Z.

(** A JavaScript number, as far as the code distinguishes numbers: an
    integral value, or one of the values that are not integers. *)
Inductive number : Type :=
| Int (z : Z)
| Fractional      (* a finite value that is not an integer; never zero *)
| NaN
| Infinite.

(** A value as it is found in a data bag at run time. *)
#[warnings="-register-all"] Inductive JsValue : Type :=
| VUndefined
| VNull
| VBoolean (b : bool)
| VNumber (n : number)
| VString (s : string)
| VDate (d : Date)
| VFunction
| VObject (props : list (string * JsValue)).

(** [{ [key: string]: any }]: the own properties of a plain object, in
    the order of their creation.  What an object inherits from its
    prototype ([toString], [constructor], [__proto__], ...) and the
    attributes of its properties (frozen, sealed, accessors) are not
    modelled: [getProperty] is the read of a name that the prototype does
    not define. *)
Definition Attribute := list (string * JsValue).

Fixpoint getProperty (o : Attribute) (key : string) : JsValue :=
  match o with
  | [] => VUndefined
  | (k, v) :: o' => if k =? key then v else getProperty o' key
  end.

Definition number_truthy (n : number) : bool :=
  match n with
  | Int z => negb (z =? 0)%Z
  | Fractional => true
  | NaN => false
  | Infinite => true
  end.

(** The outcome of a call: a returned value or a thrown [Error] with its
    message. *)
Inductive Outcome (A : Type) : Type :=
| Returned (a : A)
| Thrown (message : string).
Arguments Returned {A} a.
Arguments Thrown {A} message.

(** A method of an object whose state has type [St]: it runs from a state
    to an outcome and the state it leaves behind. *)
Definition Method (St A : Type) : Type := St -> Outcome A * St.

Module MethodM.

Definition ret {St A} (a : A) : Method St A := fun st => (Returned a, st).

Definition throw {St A} (message : string) : Method St A :=
  fun st => (Thrown message, st).

(** Sequencing: a throw ends the method with the state reached so far. *)
Definition bind {St A B} (m : Method St A) (k : A -> Method St B) : Method St B :=
  fun st =>
    match m st with
    | (Returned a, st') => k a st'
    | (Thrown e, st') => (Thrown e, st')
    end.

Definition this {St} : Method St St := fun st => (Returned st, st).

Definition assign {St} (f : St -> St) : Method St unit :=
  fun st => (Returned tt, f st).

(** A call of a function that throws or returns without touching the
    state. *)
Definition call {St A} (o : Outcome A) : Method St A := fun st => (o, st).

End MethodM.

Declare Scope method_scope.
Delimit Scope method_scope with method.
Notation "x <- m ;; k" := (MethodM.bind m (fun x => k))
  (at level 61, m at next level, right associativity) : method_scope.
Notation "m ;;; k" := (MethodM.bind m (fun _ => k))
  (at level 61, right associativity) : method_scope.

(** ** Enumerations *)

(** Modelled from the spec: [lib/permissions.ts] is not among the sources;
    the flags are NONE=0, READ=1, UPDATE=2, CREATE=4, DELETE=8, SHARE=16
    and ALL=31. *)
Module Permission.
Definition NONE : Z := 0.
Definition READ : Z := 1.
Definition UPDATE : Z := 2.
Definition CREATE : Z := 4.
Definition DELETE : Z := 8.
Definition SHARE : Z := 16.
Definition ALL : Z := 31.
End Permission.

(** Modelled from the spec: [lib/files/fileType.ts] is not among the
    sources; a Node is a File or a Folder. *)
Inductive FileType : Type := File | Folder.

Inductive NodeStatus : Type := NEW | FAILED | LOADING | LOCKED.

Definition NodeStatus_value (st : NodeStatus) : string :=
  match st with
  | NEW => "new"
  | FAILED => "failed"
  | LOADING => "loading"
  | LOCKED => "locked"
  end.

Definition NodeStatus_of_value (s : string) : option NodeStatus :=
  if s =? "new" then Some NEW
  else if s =? "failed" then Some FAILED
  else if s =? "loading" then Some LOADING
  else if s =? "locked" then Some LOCKED
  else None.

(** ** The data bag *)

(** The bag handed to a constructor, as it is at run time: any field may
    hold any value, [VUndefined] standing for an absent field. *)
Module RawData.
Record t : Type := {
  source : JsValue;
  id : JsValue;
  mtime : JsValue;
  crtime : JsValue;
  mime : JsValue;
  size : JsValue;
  permissions : JsValue;
  owner : JsValue;
  attributes : JsValue;
  root : JsValue;
  status : JsValue
}.
End RawData.

(** [string|null], or [undefined] when the field is left out. *)
Inductive Owner : Type :=
| owner_undefined
| owner_null
| owner_name (name : string).

(** The interface [NodeData]: the bag at its declared type. *)
Module NodeData.
Record t : Type := {
  source : string;
  id : option number;
  mtime : option Date;
  crtime : option Date;
  mime : option string;
  size : option number;
  permissions : option Z;
  owner : Owner;
  attributes : option Attribute;
  root : option string;
  status : option NodeStatus
}.

(** [{ ...data, source: src }] *)
Definition with_source (data : t) (src : string) : t :=
  {| source := src; id := id data; mtime := mtime data; crtime := crtime data;
     mime := mime data; size := size data; permissions := permissions data;
     owner := owner data; attributes := attributes data; root := root data;
     status := status data |}.

Definition with_mtime (data : t) (m : option Date) : t :=
  {| source := source data; id := id data; mtime := m; crtime := crtime data;
     mime := mime data; size := size data; permissions := permissions data;
     owner := owner data; attributes := attributes data; root := root data;
     status := status data |}.

Definition with_status (data : t) (st : option NodeStatus) : t :=
  {| source := source data; id := id data; mtime := mtime data; crtime := crtime data;
     mime := mime data; size := size data; permissions := permissions data;
     owner := owner data; attributes := attributes data; root := root data;
     status := st |}.

(** [delete data.attributes] *)
Definition without_attributes (data : t) : t :=
  {| source := source data; id := id data; mtime := mtime data; crtime := crtime data;
     mime := mime data; size := size data; permissions := permissions data;
     owner := owner data; attributes := None; root := root data;
     status := status data |}.

Definition opt {A} (inj : A -> JsValue) (o : option A) : JsValue :=
  match o with Some a => inj a | None => VUndefined end.

(** A typed bag seen as a run-time bag. *)
Definition toRaw (data : t) : RawData.t :=
  {| RawData.source := VString (source data);
     RawData.id := opt VNumber (id data);
     RawData.mtime := opt VDate (mtime data);
     RawData.crtime := opt VDate (crtime data);
     RawData.mime := opt VString (mime data);
     RawData.size := opt VNumber (size data);
     RawData.permissions := opt (fun z => VNumber (Int z)) (permissions data);
     RawData.owner := match owner data with
                      | owner_undefined => VUndefined
                      | owner_null => VNull
                      | owner_name s => VString s
                      end;
     RawData.attributes := opt VObject (attributes data);
     RawData.root := opt VString (root data);
     RawData.status := opt (fun st => VString (NodeStatus_value st)) (status data) |}.

(** Reading a value at a type; nothing when the value is of another type. *)
Definition asNumber (v : JsValue) : option number :=
  match v with VNumber n => Some n | _ => None end.
Definition asDate (v : JsValue) : option Date :=
  match v with VDate d => Some d | _ => None end.
Definition asString (v : JsValue) : option string :=
  match v with VString s => Some s | _ => None end.
Definition asPermission (v : JsValue) : option Z :=
  match v with VNumber (Int z) => Some z | _ => None end.
Definition asAttribute (v : JsValue) : option Attribute :=
  match v with VObject o => Some o | _ => None end.
Definition asStatus (v : JsValue) : option NodeStatus :=
  match v with VString s => NodeStatus_of_value s | _ => None end.
Definition asOwner (v : JsValue) : option Owner :=
  match v with
  | VUndefined => Some owner_undefined
  | VNull => Some owner_null
  | VString s => Some (owner_name s)
  | _ => None
  end.

(** An optional field: absent when it holds [undefined]. *)
Definition optional {A} (read : JsValue -> option A) (v : JsValue) : option (option A) :=
  match v with
  | VUndefined => Some None
  | _ => option_map Some (read v)
  end.

(** A run-time bag read at the declared type; nothing when a field holds
    a value outside its type. *)
Definition ofRaw (raw : RawData.t) : option t :=
  match asString (RawData.source raw),
        optional asNumber (RawData.id raw),
        optional asDate (RawData.mtime raw),
        optional asDate (RawData.crtime raw),
        optional asString (RawData.mime raw),
        optional asNumber (RawData.size raw),
        optional asPermission (RawData.permissions raw),
        asOwner (RawData.owner raw),
        optional asAttribute (RawData.attributes raw),
        optional asString (RawData.root raw),
        optional asStatus (RawData.status raw)
  with
  | Some src, Some i, Some mt, Some ct, Some mi, Some sz, Some pe, Some ow, Some at_,
    Some ro, Some st =>
      Some {| source := src; id := i; mtime := mt; crtime := ct; mime := mi;
              size := sz; permissions := pe; owner := ow; attributes := at_;
              root := ro; status := st |}
  | _, _, _, _, _, _, _, _, _, _, _ => None
  end.
End NodeData.

(** ** The validator *)

(** Modelled from the spec: [lib/files/nodeData.ts] is not among the
    sources.  [isDavRessource] is true exactly when the source matches the
    service pattern. *)
Definition isDavRessource (source : string) (davService : RegExp) : bool :=
  JsRegExp.matches davService source.

Module Validation.
Import JsString.

Definition isMimeWordChar (c : ascii) : bool :=
  let n := nat_of_ascii c in
  ((48 <=? n)%nat && (n <=? 57)%nat) || URL.isAlpha c
  || Ascii.eqb c "_" || Ascii.eqb c "-" || Ascii.eqb c "+" || Ascii.eqb c ".".

(** [type/subtype], each side a non-empty run of word characters. *)
Definition wellFormedMime (m : string) : bool :=
  let (type_, rest) := URL.span_until (fun c => negb (isMimeWordChar c)) m in
  match rest with
  | EmptyString => false
  | String c sub =>
      let (subtype, tail) := URL.span_until (fun c => negb (isMimeWordChar c)) sub in
      isSlash c && negb (type_ =? "") && negb (subtype =? "") && (tail =? "")
  end.

(** The rule on [id].  By the spec an id is an integer at least 0; the
    test [FileId negative fallback] of the repository constructs a File
    with the id -1234 and reads it back, so the rule is read as the name
    of its error has it, on the type of the value: an id that is there is
    a number. *)
Definition validId (v : JsValue) : bool :=
  match v with
  | VUndefined | VNumber _ => true
  | _ => false
  end.

Definition validDate (v : JsValue) : bool :=
  match v with VUndefined | VDate _ => true | _ => false end.

Definition validSize (v : JsValue) : bool :=
  match v with VUndefined | VNumber _ => true | _ => false end.

Definition validMime (t : FileType) (v : JsValue) : bool :=
  match t, v with
  | File, VString m => wellFormedMime m
  | File, _ => false
  | Folder, (VUndefined | VString _) => true
  | Folder, _ => false
  end.

Definition validAttributes (v : JsValue) : bool :=
  match v with VUndefined | VObject _ => true | _ => false end.

(** [value & ~ALL === 0] *)
Definition validPermissions (v : JsValue) : bool :=
  match v with
  | VUndefined => true
  | VNumber (Int z) => (Z.land z (Z.lnot Permission.ALL) =? 0)%Z
  | _ => false
  end.

Definition validOwner (v : JsValue) : bool :=
  match v with VUndefined | VNull | VString _ => true | _ => false end.

Definition validRootType (v : JsValue) : bool :=
  match v with VUndefined | VString _ => true | _ => false end.

Definition rootHasLeadingSlash (v : JsValue) : bool :=
  match v with VString r => startsWith r "/" | _ => true end.

Definition rootInPath (pathname : string) (v : JsValue) : bool :=
  match v with VString r => includes pathname r | _ => true end.

(** The root begins exactly where the part of the path relative to the
    service begins: right after the service token, when the path has one. *)
Definition rootRelativeToService (davService : RegExp) (pathname : string)
           (v : JsValue) : bool :=
  match v with
  | VString r =>
      match JsRegExp.search davService pathname with
      | Some (_, e) => startsWith (drop e pathname) r
      | None => true
      end
  | _ => true
  end.

Definition validStatus (v : JsValue) : bool :=
  match v with
  | VUndefined => true
  | VString s => match NodeStatus_of_value s with Some _ => true | None => false end
  | _ => false
  end.

(** The rules in their fixed order: the first one violated is reported. *)
Fixpoint firstViolation (rules : list (bool * string)) : Outcome unit :=
  match rules with
  | [] => Returned tt
  | (true, _) :: rules' => firstViolation rules'
  | (false, message) :: _ => Thrown message
  end.

End Validation.

(** Modelled from the spec: [validateData] of [lib/files/nodeData.ts],
    which is not among the sources.  The rules and their errors are those
    of the spec's validator contract.  The rule on [id] is checked first:
    the spec's sentence on it (a bag with such an id fails with this
    error) holds of every bag only then.  The other rules follow in the
    order in which the spec lists them.  The
    variant is passed along because the rule on [mime] depends on it.  The
    last rule on [root] is read through its stated purpose (the root
    begins where the service-relative part of the path begins), which is
    what the test [Invalid root] of the repository requires. *)
Definition validateData (t : FileType) (data : RawData.t) (davService : RegExp)
  : Outcome unit :=
  if negb (Validation.validId (RawData.id data)) then Thrown "Invalid id type of value"
  else
    match RawData.source data with
    | VString src =>
        match URL.parse src with
        | None => Thrown "Invalid source format, source must be a valid URL"
        | Some url =>
            let http := (URL.protocol url =? "http:") || (URL.protocol url =? "https:") in
            Validation.firstViolation
              [ (http, "Invalid source format, only http(s) is supported");
                (Validation.validDate (RawData.mtime data), "Invalid mtime type");
                (Validation.validDate (RawData.crtime data), "Invalid crtime type");
                (Validation.validSize (RawData.size data), "Invalid size type");
                (Validation.validMime t (RawData.mime data),
                 "Missing or invalid mandatory mime");
                (Validation.validAttributes (RawData.attributes data),
                 "Invalid attributes type");
                (Validation.validPermissions (RawData.permissions data),
                 "Invalid permissions");
                (Validation.validOwner (RawData.owner data), "Invalid owner");
                (Validation.validRootType (RawData.root data), "Invalid root type");
                (Validation.rootHasLeadingSlash (RawData.root data),
                 "Root must start with a leading slash");
                (Validation.rootInPath (URL.pathname url) (RawData.root data),
                 "Root must be part of the source");
                (Validation.rootRelativeToService davService (URL.pathname url)
                   (RawData.root data),
                 "The root must be relative to the service. e.g /files/emma");
                (Validation.validStatus (RawData.status data),
                 "Status must be a valid NodeStatus") ]
        end
    | _ => Thrown "Missing mandatory source"
    end.

(** ** The Node *)

Module Node.
Import JsString.
Local Open Scope method_scope.

Record t : Type := {
  _data : NodeData.t;
  _attributes : Attribute;
  _knownDavService : RegExp;
  type : FileType
}.

Definition with_data (n : t) (data : NodeData.t) : t :=
  {| _data := data; _attributes := _attributes n;
     _knownDavService := _knownDavService n; type := type n |}.

Definition with_attributes (n : t) (a : Attribute) : t :=
  {| _data := _data n; _attributes := a;
     _knownDavService := _knownDavService n; type := type n |}.

(** The constructor: the bag is validated against the pattern given, or
    the known one; the Node keeps the bag, read at its declared type, and
    moves the attributes out of it.  (The bag is also the caller's object;
    what the caller sees of it afterwards is not modelled.) *)
Definition new (variant : FileType) (data : RawData.t) (davService : option RegExp)
  : Outcome t :=
  let re := match davService with Some re => re | None => knownDavService end in
  match validateData variant data re with
  | Thrown e => Thrown e
  | Returned _ =>
      match NodeData.ofRaw data with
      | Some d =>
          Returned {| _data := NodeData.without_attributes d;
                      _attributes := match NodeData.attributes d with
                                     | Some a => a
                                     | None => []
                                     end;
                      _knownDavService := re;
                      type := variant |}
      | None => Thrown "TypeError"
      end
  end.

Definition source (n : t) : string :=
  replaceEndingSlash (NodeData.source (_data n)).

Definition basename (n : t) : string := path.basename (source n).

Definition isDavRessource (n : t) : bool :=
  isDavRessource (source n) (_knownDavService n).

Definition mime (n : t) : option string := NodeData.mime (_data n).
Definition mtime (n : t) : option Date := NodeData.mtime (_data n).
Definition crtime (n : t) : option Date := NodeData.crtime (_data n).
Definition size (n : t) : option number := NodeData.size (_data n).
Definition attributes (n : t) : Attribute := _attributes n.
Definition status (n : t) : option NodeStatus := NodeData.status (_data n).

Definition owner (n : t) : Owner :=
  if negb (isDavRessource n) then owner_null
  else NodeData.owner (_data n).

Definition permissions (n : t) : Z :=
  if (match owner n with owner_null => true | _ => false end)
     && negb (isDavRessource n)
  then Permission.READ
  else match NodeData.permissions (_data n) with
       | Some p => p
       | None => Permission.NONE
       end.

(** [x || null] for a string or [undefined]; it is also the test
    [if (x)] on a string or [null], keeping the string when it passes. *)
Definition orNull (x : option string) : option string :=
  match x with
  | Some s => if s =? "" then None else Some s
  | None => None
  end.

(** A string is truthy when it is not empty. *)
Definition truthy (x : option string) : bool :=
  match x with
  | Some s => negb (s =? "")
  | None => false
  end.

(** The getter [root]; [None] is [null]. *)
Definition root (n : t) : option string :=
  if truthy (NodeData.root (_data n)) then
    option_map replaceRootSlash (NodeData.root (_data n))
  else if isDavRessource n then
    let root := path.dirname (source n) in
    orNull (JsRegExp.pop (JsRegExp.split (_knownDavService n) root))
  else None.

(** [s || '/'] *)
Definition orSlash (s : string) : string := if s =? "" then "/" else s.

(** [this.source.slice(firstMatch + this.root.length)] with
    [firstMatch = this.source.indexOf(this.root)]. *)
Definition afterRoot (n : t) (root : string) : string :=
  let firstMatch := indexOf (source n) root in
  slice (source n) (firstMatch + Z.of_nat (String.length root)).

Definition dirname (n : t) : Outcome string :=
  match orNull (root n) with
  | Some r => Returned (path.dirname (orSlash (afterRoot n r)))
  | None =>
      match URL.parse (source n) with
      | Some url => Returned (path.dirname (URL.pathname url))
      | None => Thrown "Invalid URL"
      end
  end.

Definition path (n : t) : Outcome string :=
  match orNull (root n) with
  | Some r => Returned (orSlash (afterRoot n r))
  | None =>
      match dirname n with
      | Returned d => Returned (replaceDoubleSlashes (d ++ "/" ++ basename n))
      | Thrown e => Thrown e
      end
  end.

(** The getter [fileid]: [this._data?.id || this.attributes?.fileid]. *)
Definition fileid (n : t) : JsValue :=
  match NodeData.id (_data n) with
  | Some i => if number_truthy i then VNumber i else getProperty (attributes n) "fileid"
  | None => getProperty (attributes n) "fileid"
  end.

(** The setter of [status]. *)
Definition set_status (st : option NodeStatus) : Method t unit :=
  MethodM.assign (fun n => with_data n (NodeData.with_status (_data n) st)).

(** [updateMtime]: the time of the call replaces a modification time that
    exists. *)
Definition updateMtime (now : Date) : Method t unit :=
  this <- MethodM.this ;;
  match NodeData.mtime (_data this) with
  | Some _ => MethodM.assign (fun n => with_data n (NodeData.with_mtime (_data n) (Some now)))
  | None => MethodM.ret tt
  end.

(** [move(destination)], called at time [now]. *)
Definition move (now : Date) (destination : string) : Method t unit :=
  this <- MethodM.this ;;
  MethodM.call (validateData (type this)
                  (NodeData.toRaw (NodeData.with_source (_data this) destination))
                  (_knownDavService this)) ;;;
  MethodM.assign (fun n => with_data n (NodeData.with_source (_data n) destination)) ;;;
  updateMtime now.

(** [rename(basename)], called at time [now]. *)
Definition rename (now : Date) (basename : string) : Method t unit :=
  this <- MethodM.this ;;
  if includes basename "/" then MethodM.throw "Invalid basename"
  else move now (path.dirname (source this) ++ "/" ++ basename).

(** Modelled from the spec: [lib/files/file.ts] and [lib/files/folder.ts]
    are not among the sources; the two variants differ by their type,
    on which the rule on [mime] depends. *)
Definition newFile (data : RawData.t) (davService : option RegExp) : Outcome t :=
  new File data davService.
Definition newFolder (data : RawData.t) (davService : option RegExp) : Outcome t :=
  new Folder data davService.

(** The traps of the proxy around the attributes.  [Reflect.set] gives
    the property its new value where it stands, or adds it after the
    others; [Reflect.deleteProperty] removes it.  This is what the two do
    on a plain object that was not frozen or sealed and for a name that
    its prototype does not define; what they do otherwise (a refusal, a
    setter, an inherited value left to read) is not modelled, and no
    property below reads the attributes after a write or a delete. *)
Fixpoint setProperty (o : Attribute) (key : string) (value : JsValue) : Attribute :=
  match o with
  | [] => [(key, value)]
  | (k, v) :: o' =>
      if k =? key then (k, value) :: o' else (k, v) :: setProperty o' key value
  end.

Fixpoint removeProperty (o : Attribute) (key : string) : Attribute :=
  match o with
  | [] => []
  | (k, v) :: o' => if k =? key then removeProperty o' key else (k, v) :: removeProperty o' key
  end.

Definition setAttribute (now : Date) (prop : string) (value : JsValue) : Method t unit :=
  updateMtime now ;;;
  MethodM.assign (fun n => with_attributes n (setProperty (_attributes n) prop value)).

Definition deleteAttribute (now : Date) (prop : string) : Method t unit :=
  updateMtime now ;;;
  MethodM.assign (fun n => with_attributes n (removeProperty (_attributes n) prop)).

End Node.

(** ** The registry of file actions *)

Inductive DefaultType : Type := DEFAULT | HIDDEN.

Module FileActions.
Import JsString.
Local Open Scope method_scope.

(** [FileActionData] as it is at run time. *)
Record FileActionData : Type := {
  id : JsValue;
  displayName : JsValue;
  title : JsValue;
  iconSvgInline : JsValue;
  enabled : JsValue;
  exec : JsValue;
  execBatch : JsValue;
  order : JsValue;
  default : JsValue;
  inline : JsValue;
  renderInline : JsValue
}.

Definition isFunction (v : JsValue) : bool :=
  match v with VFunction => true | _ => false end.

Definition absentOrFunction (v : JsValue) : bool :=
  match v with VUndefined | VFunction => true | _ => false end.

Definition value_truthy (v : JsValue) : bool :=
  match v with
  | VUndefined | VNull => false
  | VBoolean b => b
  | VNumber n => number_truthy n
  | VString s => negb (s =? "")
  | VDate _ | VFunction | VObject _ => true
  end.

(** [validateAction]; a property holding [undefined] counts as left out. *)
Definition validateAction (action : FileActionData) : Outcome unit :=
  Validation.firstViolation
    [ (match id action with VString s => negb (s =? "") | _ => false end, "Invalid id");
      (isFunction (displayName action), "Invalid displayName function");
      (absentOrFunction (title action), "Invalid title function");
      (isFunction (iconSvgInline action), "Invalid iconSvgInline function");
      (isFunction (exec action), "Invalid exec function");
      (absentOrFunction (enabled action), "Invalid enabled function");
      (absentOrFunction (execBatch action), "Invalid execBatch function");
      (match order action with VUndefined | VNumber _ => true | _ => false end,
       "Invalid order");
      (negb (value_truthy (default action))
       || match default action with
          | VString s => (s =? "default") || (s =? "hidden")
          | _ => false
          end,
       "Invalid default");
      (absentOrFunction (inline action), "Invalid inline function");
      (absentOrFunction (renderInline action), "Invalid renderInline function") ].

(** A constructed [FileAction]: its getter [id] is a string. *)
Record FileAction : Type := { _action : FileActionData; action_id : string }.

Definition new (action : FileActionData) : Outcome FileAction :=
  match validateAction action with
  | Thrown e => Thrown e
  | Returned _ =>
      match id action with
      | VString s => Returned {| _action := action; action_id := s |}
      | _ => Thrown "TypeError"
      end
  end.

Inductive LogEntry : Type :=
| debug (message : string)
| error (message : string)
| warn (message : string).

(** The part of [window] the registry lives in, and what was logged. *)
Record Window : Type := {
  _nc_fileactions : option (list FileAction);
  log : list LogEntry
}.

Definition logged (entry : LogEntry) : Method Window unit :=
  MethodM.assign (fun w => {| _nc_fileactions := _nc_fileactions w;
                              log := log w ++ [entry] |}).

Definition set_fileactions (l : list FileAction) : Method Window unit :=
  MethodM.assign (fun w => {| _nc_fileactions := Some l; log := log w |}).

Definition initialize : Method Window (list FileAction) :=
  window <- MethodM.this ;;
  match _nc_fileactions window with
  | None => set_fileactions [] ;;; logged (debug "FileActions initialized") ;;; MethodM.ret []
  | Some l => MethodM.ret l
  end.

Definition registerFileAction (action : FileAction) : Method Window unit :=
  actions <- initialize ;;
  match List.find (fun search => action_id search =? action_id action) actions with
  | Some _ =>
      logged (error ("FileAction " ++ action_id action ++ " already registered"))
  | None => set_fileactions (actions ++ [action])
  end.

Definition getFileActions : Method Window (list FileAction) := initialize.

End FileActions.

(** ** The registry of the new-file menu *)

Module NewFileMenu.
Import JsString.
Local Open Scope method_scope.

(** The predicate [if] of an entry: left out, a function of the context,
    or some other value. *)
Inductive IfProperty : Type :=
| if_undefined
| if_function (enabled : Node.t -> bool)
| if_other (v : JsValue).

Record Entry : Type := {
  id : JsValue;
  displayName : JsValue;
  templateName : JsValue;
  iconClass : JsValue;
  iconSvgInline : JsValue;
  if_ : IfProperty;
  handler : JsValue
}.

(** The menu: its entries in the order of registration, and the log. *)
Record t : Type := { _entries : list Entry; log : list FileActions.LogEntry }.

Definition empty : t := {| _entries := []; log := [] |}.

Definition hasId (key : string) (entry : Entry) : bool :=
  match id entry with VString s => s =? key | _ => false end.

Fixpoint getEntryIndex (entries : list Entry) (key : string) : option nat :=
  match entries with
  | [] => None
  | e :: entries' =>
      if hasId key e then Some 0%nat else option_map S (getEntryIndex entries' key)
  end.

Definition absentOrString (v : JsValue) : bool :=
  match v with VUndefined | VString _ => true | _ => false end.

(** Modelled from the spec: the rules on the fields of an entry
    ([lib/newFileMenu.ts] is not among the sources).  Where the spec names
    no message, the message is the one the tests of the repository expect. *)
Definition validateFields (entry : Entry) : Outcome unit :=
  Validation.firstViolation
    [ (FileActions.value_truthy (id entry) && FileActions.value_truthy (displayName entry),
       "Invalid entry");
      (match id entry, displayName entry with
       | VString _, VString _ => true
       | _, _ => false
       end, "Invalid id or displayName property");
      (absentOrString (templateName entry), "Invalid templateName property");
      (absentOrString (iconClass entry) && absentOrString (iconSvgInline entry),
       "Invalid icon provided");
      (match if_ entry with if_other _ => false | _ => true end, "Invalid if property");
      (FileActions.absentOrFunction (handler entry), "Invalid handler property");
      (FileActions.value_truthy (templateName entry)
       || FileActions.value_truthy (handler entry),
       "At least a templateName or a handler must be provided") ].

(** Modelled from the spec: [registerEntry] throws [Duplicate entry] when
    the id is already present, and appends the entry otherwise. *)
Definition registerEntry (entry : Entry) : Method t unit :=
  MethodM.call (validateFields entry) ;;;
  menu <- MethodM.this ;;
  match id entry with
  | VString key =>
      match getEntryIndex (_entries menu) key with
      | Some _ => MethodM.throw "Duplicate entry"
      | None => MethodM.assign (fun m => {| _entries := _entries m ++ [entry]; log := log m |})
      end
  | _ => MethodM.throw "TypeError"
  end.

(** Modelled from the spec: [unregisterEntry] removes the entry with the
    given id and logs a warning when there is none. *)
Definition unregisterEntry (key : string) : Method t unit :=
  menu <- MethodM.this ;;
  match getEntryIndex (_entries menu) key with
  | Some i =>
      MethodM.assign (fun m => {| _entries := firstn i (_entries m) ++ skipn (S i) (_entries m);
                                  log := log m |})
  | None =>
      MethodM.assign (fun m => {| _entries := _entries m;
                                  log := log m ++ [FileActions.warn "Entry not found"] |})
  end.

(** Modelled from the spec: [getEntries] in the order of registration;
    with a context, the entries whose [if] rejects it are left out. *)
Definition getEntries (context : option Node.t) (menu : t) : list Entry :=
  match context with
  | Some folder =>
      List.filter (fun entry => match if_ entry with
                                | if_function enabled => enabled folder
                                | _ => true
                                end) (_entries menu)
  | None => _entries menu
  end.

End NewFileMenu.

(** ** Sample data, taken from the tests of the repository *)

Module Samples.

Definition bag (src : string) (mime_ owner_ root_ id_ attributes_ mtime_ : JsValue)
  : RawData.t :=
  {| RawData.source := VString src; RawData.id := id_; RawData.mtime := mtime_;
     RawData.crtime := VUndefined; RawData.mime := mime_; RawData.size := VUndefined;
     RawData.permissions := VUndefined; RawData.owner := owner_;
     RawData.attributes := attributes_; RawData.root := root_;
     RawData.status := VUndefined |}.

Definition data (src : string) (mime_ : option string) (root_ : option string)
           (id_ : option number) (mtime_ : option Date) : NodeData.t :=
  {| NodeData.source := src; NodeData.id := id_; NodeData.mtime := mtime_;
     NodeData.crtime := None; NodeData.mime := mime_; NodeData.size := None;
     NodeData.permissions := None; NodeData.owner := owner_name "emma";
     NodeData.attributes := None; NodeData.root := root_; NodeData.status := None |}.

Definition node (variant : FileType) (d : NodeData.t) (a : Attribute) : Node.t :=
  {| Node._data := d; Node._attributes := a;
     Node._knownDavService := knownDavService; Node.type := variant |}.

Definition picture_url : string :=
  "https://cloud.domain.com/remote.php/dav/files/emma/Photos/picture.jpg".

(** The file of the test [Provided root dav service], with a
    modification time. *)
Definition picture : Node.t :=
  node File (data picture_url (Some "image/jpeg") (Some "/files/emma") None (Some 1000%Z)) [].

(** The folder of the test [Root and source are the same]. *)
Definition home : Node.t :=
  node Folder (data "https://cloud.domain.com/remote.php/dav/files/emma" None
                    (Some "/files/emma") None None) [].

(** The folder of the test [Source contains a similar root path]. *)
Definition similar : Node.t :=
  node Folder (data "https://domain.com/remote.php/dav/files/emma/files/emma" None
                    (Some "/files/emma") None None) [].

(** The file of the test [Root null fallback]. *)
Definition rootless : Node.t :=
  node File (data "https://cloud.domain.com/remote.php/dav/picture.jpg"
                  (Some "image/jpeg") None None None) [].

(** The file of the test [Non dav ressource with undefined root]. *)
Definition remote : Node.t :=
  node File (data "https://domain.com/files/images/emma.jpeg"
                  (Some "image/jpeg") None None None) [].

(** The bag of most tests: a JPEG owned by emma. *)
Definition file_bag (src : string) (root_ id_ : JsValue) : RawData.t :=
  bag src (VString "image/jpeg") (VString "emma") root_ id_ VUndefined VUndefined.

Definition folder_bag (src : string) (root_ : JsValue) : RawData.t :=
  bag src VUndefined (VString "emma") root_ VUndefined VUndefined VUndefined.

(** What the tests read from a Node. *)
Definition observe (made : Outcome Node.t)
  : Outcome (string * option string * Outcome string * Outcome string) :=
  match made with
  | Returned n => Returned (Node.source n, Node.root n, Node.dirname n, Node.path n)
  | Thrown e => Thrown e
  end.

Definition thrown (made : Outcome Node.t) : option string :=
  match made with
  | Returned _ => None
  | Thrown e => Some e
  end.

(** The file of the test [Root with ending slash is removed]. *)
Definition slashed_root : Node.t :=
  node File (data picture_url (Some "image/jpeg") (Some "/files/emma/") None None) [].

(** The bags of the test [Invalid id] of [__tests__/files/node.spec.ts];
    the current test keeps the second one only. *)
Definition negative_id : RawData.t :=
  bag picture_url (VString "image/jpeg") (VString "emma") VUndefined
      (VNumber (Int (-1234))) VUndefined VUndefined.

Definition string_id : RawData.t :=
  bag picture_url (VString "image/jpeg") (VString "emma") VUndefined
      (VString "1234") VUndefined VUndefined.

(** The file of the test [Provided root dav service] with the root [/]. *)
Definition slash_root : Node.t :=
  node File (data picture_url (Some "image/jpeg") (Some "/") None None) [].

(** A file below a directory named like a second service. *)
Definition twice : Node.t :=
  node File (data "https://cloud.domain.com/remote.php/dav/files/emma/public.php/webdav/x/y.txt"
                  (Some "image/jpeg") None None None) [].

(** A file on a host named like the root. *)
Definition files_host : Node.t :=
  node File (data "https://files/remote.php/dav/files/emma/a.txt"
                  (Some "text/plain") (Some "/files") None None) [].

(** A folder whose source ends with the service token. *)
Definition service_folder : Node.t :=
  node Folder (data "https://cloud.domain.com/remote.php/dav" None None None None) [].

(** Destinations for [move]. *)
Definition john_url : string :=
  "https://cloud.domain.com/remote.php/dav/files/john/picture.jpg".
Definition pictures_url : string :=
  "https://cloud.domain.com/remote.php/dav/files/emma/Pictures/picture.jpg".

(** [picture] after [move(pictures_url)] at time 2000. *)
Definition moved : Node.t :=
  node File (data pictures_url (Some "image/jpeg") (Some "/files/emma") None (Some 2000%Z)) [].

(** A file action under a given id. *)
Definition action (name : string) (order_ : JsValue) : FileActions.FileAction :=
  {| FileActions._action :=
       {| FileActions.id := VString name; FileActions.displayName := VFunction;
          FileActions.title := VUndefined; FileActions.iconSvgInline := VFunction;
          FileActions.enabled := VUndefined; FileActions.exec := VFunction;
          FileActions.execBatch := VUndefined; FileActions.order := order_;
          FileActions.default := VUndefined; FileActions.inline := VUndefined;
          FileActions.renderInline := VUndefined |};
     FileActions.action_id := name |}.

Definition window : FileActions.Window :=
  {| FileActions._nc_fileactions := None; FileActions.log := [] |}.

(** The entry of the test [Adding duplicate Entry]. *)
Definition empty_file : NewFileMenu.Entry :=
  {| NewFileMenu.id := VString "empty-file";
     NewFileMenu.displayName := VString "Create empty file";
     NewFileMenu.templateName := VString "New file.txt";
     NewFileMenu.iconClass := VString "icon-filetype-text";
     NewFileMenu.iconSvgInline := VUndefined;
     NewFileMenu.if_ := NewFileMenu.if_undefined;
     NewFileMenu.handler := VFunction |}.

End Samples.

(** ** Predicates of the properties *)

(** [p] occurs in [s] at index [i]. *)
Definition OccursAt (p s : string) (i : nat) : Prop :=
  exists pre post, s = pre ++ p ++ post /\ String.length pre = i.

(** The registry of file actions, empty before its first use. *)
Definition registry (w : FileActions.Window) : list FileActions.FileAction :=
  match FileActions._nc_fileactions w with
  | Some l => l
  | None => []
  end.

(** [tok] is the last occurrence of the pattern in [s]: [s] is [a], then
    [tok], then [b]; the pattern matches [tok] where [a] ends; no match
    starts further right; and the matches that start further left end
    before [tok] starts. *)
Definition LastToken (re : RegExp) (s a tok b : string) : Prop :=
  s = a ++ tok ++ b
  /\ tok <> ""
  /\ (exists caps,
        exec_at re s (String.length a)
        = Some ((String.length a + String.length tok)%nat, caps))
  /\ (forall q, (String.length a < q)%nat -> exec_at re s q = None)
  /\ (forall q e caps, (q < String.length a)%nat ->
        exec_at re s q = Some (e, caps) -> (e <= String.length a)%nat).

(** No match of [re] in [s] starts at the [count] indices from [lo] on. *)
Definition noMatchIn (re : RegExp) (s : string) (lo count : nat) : bool :=
  forallb (fun q => match exec_at re s q with None => true | Some _ => false end)
          (seq lo count).

(** The matches of [re] in [s] that start before [bound] end by [bound]. *)
Definition matchesEndBy (re : RegExp) (s : string) (bound : nat) : bool :=
  forallb (fun q => match exec_at re s q with
                    | None => true
                    | Some (e, _) => (e <=? bound)%nat
                    end)
          (seq 0 bound).

(** The claim C2 as it is worded, for one Node: the supplied root less
    its ending slash; else, for a DAV resource, the text that follows the
    last service token in the directory of the source; else null. *)
Definition root_as_claimed (n : Node.t) : Prop :=
  let supplied := NodeData.root (Node._data n) in
  (forall r0, supplied = Some r0 -> r0 <> "" ->
     Node.root n = Some (JsString.replaceEndingSlash r0))
  /\ (Node.truthy supplied = false -> Node.isDavRessource n = true ->
      forall a tok b,
        LastToken (Node._knownDavService n) (path.dirname (Node.source n)) a tok b ->
        Node.root n = Some b)
  /\ (Node.truthy supplied = false -> Node.isDavRessource n = false ->
      Node.root n = None).

(** The claim C2 as amended: the ending slash of a supplied root is
    dropped only when it follows a stem that is not empty and holds no
    line break; and, the service token occurring in the directory of the
    source, the text that follows its last occurrence there is returned
    only when it is not empty, null being returned otherwise.  A source
    that matches the pattern while its directory does not hold the token
    (the match runs into the last segment) is left out. *)
Definition root_as_amended (n : Node.t) : Prop :=
  let supplied := NodeData.root (Node._data n) in
  (forall r0, supplied = Some r0 -> r0 <> "" ->
     Node.root n = Some (JsString.replaceRootSlash r0)
     /\ (forall stem, r0 = stem ++ "/" -> stem <> "" ->
           JsString.noLineTerminator stem = true -> Node.root n = Some stem)
     /\ (JsString.endsWithSlash r0 = false -> Node.root n = Some r0)
     /\ (r0 = "/" -> Node.root n = Some "/"))
  /\ (Node.truthy supplied = false -> Node.isDavRessource n = true ->
      forall a tok b,
        LastToken (Node._knownDavService n) (path.dirname (Node.source n)) a tok b ->
        Node.root n = if b =? "" then None else Some b)
  /\ (Node.truthy supplied = false -> Node.isDavRessource n = false ->
      Node.root n = None).

(** A value that is there, is not a number and is not falsy: a string
    that is not empty, [true], a Date, a function or an object. *)
Definition truthyNonNumber (v : JsValue) : bool :=
  match v with
  | VString s => negb (s =? "")
  | VBoolean b => b
  | VDate _ | VFunction | VObject _ => true
  | VUndefined | VNull | VNumber _ => false
  end.

(** The claim C4 as it is worded, for one Node: the root followed by the
    path is a suffix of the path of the source URL, and [dirname] is the
    directory of [path]. *)
Definition root_and_path_rebuild_the_url_path (n : Node.t) : Prop :=
  exists r p d url,
    Node.root n = Some r /\ Node.path n = Returned p /\ Node.dirname n = Returned d
    /\ URL.parse (Node.source n) = Some url
    /\ JsString.isSuffixOf (r ++ p) (URL.pathname url)
    /\ d = path.dirname p.

(** * Properties *)

Local Open Scope method_scope.

(** ** The mutations of a Node, and runs of registrations *)

(** What a caller can do to a Node after its construction: the two
    methods, a write or a delete on the attributes, and the setter of the
    status. *)
Inductive Operation : Type :=
| OpMove (destination : string)
| OpRename (basename : string)
| OpSetAttribute (prop : string) (value : JsValue)
| OpDeleteAttribute (prop : string)
| OpSetStatus (status : option NodeStatus).

Definition perform (now : Date) (op : Operation) : Method Node.t unit :=
  match op with
  | OpMove destination => Node.move now destination
  | OpRename basename => Node.rename now basename
  | OpSetAttribute prop value => Node.setAttribute now prop value
  | OpDeleteAttribute prop => Node.deleteAttribute now prop
  | OpSetStatus status => Node.set_status status
  end.

(** A run of operations, each at its own time, by a caller that goes on
    after an error: the Node that is left. *)
Fixpoint performAll (ops : list (Date * Operation)) (n : Node.t) : Node.t :=
  match ops with
  | [] => n
  | (now, op) :: ops' => performAll ops' (snd (perform now op n))
  end.

(** Registrations one after the other: the window that is left. *)
Fixpoint registerAll (actions : list FileActions.FileAction) (w : FileActions.Window)
  : FileActions.Window :=
  match actions with
  | [] => w
  | a :: actions' => registerAll actions' (snd (FileActions.registerFileAction a w))
  end.

(** The ids of the registered actions, in the order of the registry. *)
Definition registeredIds (w : FileActions.Window) : list string :=
  map FileActions.action_id (registry w).

(** No slash at any index of [s]. *)
Definition noSlash (s : string) : Prop := forall i, JsString.slashAt s i = false.

(** ** The functions of the platform on the inputs of the tests *)

Example dirname_file :
  path.dirname "/Photos/picture.jpg" = "/Photos" /\
  path.dirname "/picture.jpg" = "/" /\
  path.dirname "/" = "/" /\
  path.dirname "https://cloud.domain.com/remote.php/dav/files/emma/Photos/picture.jpg"
    = "https://cloud.domain.com/remote.php/dav/files/emma/Photos".
Proof. repeat split; reflexivity. Qed.

Example basename_file :
  path.basename "/Photos/picture.jpg" = "picture.jpg" /\
  path.basename "/Photos/" = "Photos" /\
  path.basename "/" = "".
Proof. repeat split; reflexivity. Qed.

Example slice_and_indexOf :
  JsString.indexOf "abcabc" "bc" = 1%Z /\
  JsString.indexOf "abcabc" "x" = (-1)%Z /\
  JsString.slice "abcabc" 4 = "bc" /\
  JsString.slice "abcabc" (-1) = "c" /\
  JsString.replaceEndingSlash "a//" = "a/" /\
  JsString.replaceRootSlash "/" = "/" /\
  JsString.replaceRootSlash "/files/emma/" = "/files/emma" /\
  JsString.replaceDoubleSlashes "a///b//c" = "a//b/c".
Proof. repeat split; reflexivity. Qed.


(** ** The tests of the repository on the model *)

(** [Root and paths detection]. *)
Example test_root_and_paths :
  Samples.observe (Node.newFile (Samples.file_bag Samples.picture_url VUndefined VUndefined) None)
  = Returned (Samples.picture_url, Some "/files/emma/Photos", Returned "/",
              Returned "/picture.jpg")
  /\ Samples.observe
       (Node.newFile (Samples.file_bag Samples.picture_url (VString "/files/emma") VUndefined)
          None)
     = Returned (Samples.picture_url, Some "/files/emma", Returned "/Photos",
                 Returned "/Photos/picture.jpg")
  /\ Samples.observe
       (Node.newFile (Samples.file_bag Samples.picture_url (VString "/files/emma/") VUndefined)
          None)
     = Returned (Samples.picture_url, Some "/files/emma", Returned "/Photos",
                 Returned "/Photos/picture.jpg")
  /\ Samples.observe
       (Node.newFolder
          (Samples.folder_bag "https://cloud.domain.com/remote.php/dav/files/emma"
             (VString "/files/emma")) None)
     = Returned ("https://cloud.domain.com/remote.php/dav/files/emma", Some "/files/emma",
                 Returned "/", Returned "/")
  /\ Samples.observe
       (Node.newFolder
          (Samples.folder_bag "https://domain.com/remote.php/dav/files/emma/files/emma"
             (VString "/files/emma")) None)
     = Returned ("https://domain.com/remote.php/dav/files/emma/files/emma",
                 Some "/files/emma", Returned "/files", Returned "/files/emma")
  /\ Samples.observe
       (Node.newFile
          (Samples.file_bag "https://domain.com/remote.php/dav/files/emma/files/emma.jpeg"
             (VString "/files/emma") VUndefined) None)
     = Returned ("https://domain.com/remote.php/dav/files/emma/files/emma.jpeg",
                 Some "/files/emma", Returned "/files", Returned "/files/emma.jpeg")
  /\ Samples.observe
       (Node.newFile
          (Samples.file_bag "https://domain.com/files/images/emma.jpeg" VUndefined VUndefined)
          None)
     = Returned ("https://domain.com/files/images/emma.jpeg", None,
                 Returned "/files/images", Returned "/files/images/emma.jpeg").
Proof. repeat split; reflexivity. Qed.

(** [Node testing]. *)
Example test_node :
  Node.newFile
    (Samples.file_bag "https://cloud.domain.com/remote.php/dav/picture.jpg" VUndefined
       VUndefined) None = Returned Samples.rootless
  /\ Node.root Samples.rootless = None
  /\ Samples.observe
       (Node.newFolder
          (Samples.folder_bag "https://cloud.domain.com/remote.php/dav/files/emma/Photos/"
             VUndefined) None)
     = Returned ("https://cloud.domain.com/remote.php/dav/files/emma/Photos",
                 Some "/files/emma", Returned "/", Returned "/Photos")
  /\ fst (Node.rename 0%Z "new/folder" Samples.home) = Thrown "Invalid basename".
Proof. repeat split; reflexivity. Qed.

(** [Sanity checks]: the message of each rejected bag. *)
Example test_sanity_checks :
  let reject := fun bag => Samples.thrown (Node.newFile bag None) in
  let field := fun mime_ owner_ root_ attributes_ mtime_ =>
    Samples.bag Samples.picture_url mime_ owner_ root_ VUndefined attributes_ mtime_ in
  reject Samples.string_id = Some "Invalid id type of value"
  /\ reject {| RawData.source := VUndefined; RawData.id := VUndefined;
               RawData.mtime := VUndefined; RawData.crtime := VUndefined;
               RawData.mime := VUndefined; RawData.size := VUndefined;
               RawData.permissions := VUndefined; RawData.owner := VUndefined;
               RawData.attributes := VUndefined; RawData.root := VUndefined;
               RawData.status := VUndefined |}
     = Some "Missing mandatory source"
  /\ reject (Samples.file_bag "/remote.php/dav/files/emma/Photos/picture.jpg" VUndefined
               VUndefined)
     = Some "Invalid source format, source must be a valid URL"
  /\ reject (Samples.file_bag "ftp://remote.php/dav/files/emma/Photos/picture.jpg" VUndefined
               VUndefined)
     = Some "Invalid source format, only http(s) is supported"
  /\ reject (field (VString "image") (VString "emma") VUndefined VUndefined (VString "invalid"))
     = Some "Invalid mtime type"
  /\ reject (field (VString "image") (VString "emma") VUndefined VUndefined VUndefined)
     = Some "Missing or invalid mandatory mime"
  /\ reject (field (VString "image/jpeg") (VString "emma") VUndefined (VString "test")
               VUndefined)
     = Some "Invalid attributes type"
  /\ reject (field (VString "image/jpeg") (VBoolean true) VUndefined VUndefined VUndefined)
     = Some "Invalid owner"
  /\ reject (field (VString "image/jpeg") (VString "emma") (VBoolean true) VUndefined
               VUndefined)
     = Some "Invalid root type"
  /\ reject (field (VString "image/jpeg") (VString "emma")
               (VString "https://cloud.domain.com/remote.php/dav/") VUndefined VUndefined)
     = Some "Root must start with a leading slash"
  /\ reject (field (VString "image/jpeg") (VString "emma") (VString "/files/john")
               VUndefined VUndefined)
     = Some "Root must be part of the source"
  /\ reject (field (VString "image/jpeg") (VString "emma")
               (VString "/remote.php/dav/files/emma") VUndefined VUndefined)
     = Some "The root must be relative to the service. e.g /files/emma"
  /\ Samples.thrown
       (Node.newFolder
          (Samples.folder_bag "https://domain.com/files/images/" VUndefined) None)
     = None.
Proof. repeat split; reflexivity. Qed.

(** [Dav service detection] and [Permissions handling]. *)
Example test_dav_service_and_permissions :
  let dav := fun src custom =>
    match Node.newFile (Samples.file_bag src VUndefined VUndefined) custom with
    | Returned n => Some (Node.isDavRessource n, Node.permissions n)
    | Thrown _ => None
    end in
  dav Samples.picture_url None = Some (true, Permission.NONE)
  /\ dav "https://cloud.domain.com/remote.php/webdav/files/emma/Photos/picture.jpg" None
     = Some (true, Permission.NONE)
  /\ dav "https://cloud.domain.com/public.php/dav/files/emma/Photos/picture.jpg" None
     = Some (true, Permission.NONE)
  /\ dav "https://cloud.domain.com/public.php/webdav/files/emma/Photos/picture.jpg" None
     = Some (true, Permission.NONE)
  /\ dav "https://cloud.domain.com/test.php/dav/files/emma/Photos/picture.jpg"
         (Some (JsRegExp.literal "test.php/dav"))
     = Some (true, Permission.NONE)
  /\ dav Samples.picture_url (Some (JsRegExp.literal "test.php/dav"))
     = Some (false, Permission.READ).
Proof. repeat split; reflexivity. Qed.

(** [FileId attribute], as in the tests that go with the [root] and
    [status] of [node.ts]: the id -1234 of [FileId negative fallback] is
    accepted and read back.  (The older [__tests__/files/node.spec.ts],
    which has no test on [status] and expects the error [Invalid
    attributes format] where the spec has [Invalid attributes type],
    still expects it to be refused.) *)
Example test_fileid :
  let fileid := fun bag =>
    match Node.newFile bag None with
    | Returned n => Returned (Node.fileid n)
    | Thrown e => Thrown e
    end in
  let src := "https://cloud.domain.com/remote.php/dav/picture.jpg" in
  fileid (Samples.file_bag src VUndefined VUndefined) = Returned VUndefined
  /\ fileid (Samples.file_bag src VUndefined (VNumber (Int 1234)))
     = Returned (VNumber (Int 1234))
  /\ fileid (Samples.bag src (VString "image/jpeg") (VString "emma") VUndefined VUndefined
               (VObject [("fileid", VNumber (Int 1234))]) VUndefined)
     = Returned (VNumber (Int 1234))
  /\ fileid (Samples.file_bag src VUndefined (VNumber (Int (-1234))))
     = Returned (VNumber (Int (-1234))).
Proof. repeat split; reflexivity. Qed.

(** [NewFileMenu]: registering, and removing by id. *)
Example test_new_file_menu :
  let registered := snd (NewFileMenu.registerEntry Samples.empty_file NewFileMenu.empty) in
  NewFileMenu.getEntries None registered = [Samples.empty_file]
  /\ fst (NewFileMenu.registerEntry Samples.empty_file registered) = Thrown "Duplicate entry"
  /\ NewFileMenu.getEntries None
       (snd (NewFileMenu.unregisterEntry "empty-file" registered)) = []
  /\ NewFileMenu.log (snd (NewFileMenu.unregisterEntry "unknown-entry" NewFileMenu.empty))
     = [FileActions.warn "Entry not found"].
Proof. repeat split; reflexivity. Qed.

(** ** Running a method *)

Lemma bind_returned {St A B} (m : Method St A) (k : A -> Method St B) st a st' :
  m st = (Returned a, st') -> MethodM.bind m k st = k a st'.
Proof. intros H. unfold MethodM.bind. now rewrite H. Qed.

Lemma bind_thrown {St A B} (m : Method St A) (k : A -> Method St B) st e st' :
  m st = (Thrown e, st') -> MethodM.bind m k st = (Thrown e, st').
Proof. intros H. unfold MethodM.bind. now rewrite H. Qed.

Lemma updateMtime_run now n :
  Node.updateMtime now n =
  (Returned tt,
   Node.with_data n (NodeData.with_mtime (Node._data n)
                       (option_map (fun _ => now) (NodeData.mtime (Node._data n))))).
Proof.
  unfold Node.updateMtime, MethodM.bind, MethodM.this, MethodM.assign, MethodM.ret.
  destruct n as [d a re ty]; destruct d; simpl.
  destruct mtime; reflexivity.
Qed.

(** What [move] does, by the outcome of the validation. *)
Lemma move_run now destination n :
  Node.move now destination n =
  match validateData (Node.type n)
          (NodeData.toRaw (NodeData.with_source (Node._data n) destination))
          (Node._knownDavService n) with
  | Thrown e => (Thrown e, n)
  | Returned _ =>
      Node.updateMtime now
        (Node.with_data n (NodeData.with_source (Node._data n) destination))
  end.
Proof.
  unfold Node.move, MethodM.bind, MethodM.this, MethodM.call, MethodM.assign.
  destruct (validateData _ _ _); reflexivity.
Qed.

(** ** C1: [move] is atomic *)

(** C1.  Whatever the Node and the destination: when [move] throws, the
    error is the one of the validation of the bag with [source] replaced
    by the destination, and the Node is exactly as before the call; when
    it returns, the validation passed, the stored source is the
    destination (the getter reads it without its ending slash), the
    modification time is refreshed if there was one, and every other
    field is as before. *)
Theorem move_is_atomic (now : Date) (destination : string) (n n' : Node.t)
        (outcome : Outcome unit) :
  Node.move now destination n = (outcome, n') ->
  let validation :=
    validateData (Node.type n)
      (NodeData.toRaw (NodeData.with_source (Node._data n) destination))
      (Node._knownDavService n) in
  match outcome with
  | Thrown e => validation = Thrown e /\ n' = n
  | Returned _ =>
      validation = Returned tt
      /\ NodeData.source (Node._data n') = destination
      /\ Node.source n' = JsString.replaceEndingSlash destination
      /\ Node.mtime n' = option_map (fun _ => now) (Node.mtime n)
      /\ NodeData.root (Node._data n') = NodeData.root (Node._data n)
      /\ NodeData.id (Node._data n') = NodeData.id (Node._data n)
      /\ Node.crtime n' = Node.crtime n
      /\ Node.mime n' = Node.mime n
      /\ Node.size n' = Node.size n
      /\ NodeData.permissions (Node._data n') = NodeData.permissions (Node._data n)
      /\ NodeData.owner (Node._data n') = NodeData.owner (Node._data n)
      /\ Node.status n' = Node.status n
      /\ Node.attributes n' = Node.attributes n
      /\ Node._knownDavService n' = Node._knownDavService n
      /\ Node.type n' = Node.type n
  end.
Proof.
  intros Hrun validation. rewrite move_run in Hrun. fold validation in Hrun.
  destruct validation as [[]|e] eqn:Hv.
  - rewrite updateMtime_run in Hrun. inversion Hrun; subst; clear Hrun.
    destruct n as [d a re ty]; destruct d; simpl.
    repeat split; reflexivity.
  - inversion Hrun; subst. split; reflexivity.
Qed.

Lemma move_is_atomic_witness :
  (Node.move 2000%Z Samples.john_url Samples.picture
     = (Thrown "Root must be part of the source", Samples.picture)
   /\ validateData File
        (NodeData.toRaw (NodeData.with_source (Node._data Samples.picture)
                           Samples.john_url))
        knownDavService = Thrown "Root must be part of the source")
  /\ (Node.move 2000%Z Samples.pictures_url Samples.picture
       = (Returned tt, Samples.moved)
      /\ NodeData.source (Node._data Samples.moved) = Samples.pictures_url
      /\ Node.source Samples.moved = Samples.pictures_url
      /\ Node.mtime Samples.moved = Some 2000%Z
      /\ NodeData.root (Node._data Samples.moved) = Some "/files/emma").
Proof.
  split.
  - destruct (move_is_atomic 2000%Z Samples.john_url Samples.picture Samples.picture
                (Thrown "Root must be part of the source") eq_refl) as [Hv _].
    split; [reflexivity | exact Hv].
  - destruct (move_is_atomic 2000%Z Samples.pictures_url Samples.picture Samples.moved
                (Returned tt) eq_refl)
      as (_ & Hsrc & Hget & Hmtime & Hroot & _).
    split; [reflexivity|]. repeat split; assumption.
Defined.

(** ** Facts on strings *)

Section StringFacts.
Import JsString.

Lemma app_assoc_s (a b c : string) : (a ++ b) ++ c = a ++ (b ++ c).
Proof. induction a as [|x a IH]; simpl; [reflexivity | now rewrite IH]. Qed.

Lemma app_nil_r_s (a : string) : a ++ "" = a.
Proof. induction a as [|x a IH]; simpl; [reflexivity | now rewrite IH]. Qed.

Lemma length_app_s (a b : string) :
  String.length (a ++ b) = (String.length a + String.length b)%nat.
Proof. induction a as [|x a IH]; simpl; [reflexivity | now rewrite IH]. Qed.

Lemma drop_app (a b : string) : drop (String.length a) (a ++ b) = b.
Proof. induction a as [|x a IH]; simpl; [now destruct b | exact IH]. Qed.

Lemma take_app (a b : string) : take (String.length a) (a ++ b) = a.
Proof.
  induction a as [|x a IH]; simpl; [now destruct b | now rewrite IH].
Qed.

Lemma take_drop (n : nat) (s : string) : take n s ++ drop n s = s.
Proof.
  revert s; induction n as [|n IH]; intros [|c s]; simpl; try reflexivity.
  now rewrite IH.
Qed.

Lemma length_take (n : nat) (s : string) :
  (n <= String.length s)%nat -> String.length (take n s) = n.
Proof.
  revert s; induction n as [|n IH]; intros [|c s]; simpl; intros H; try lia.
  rewrite IH; lia.
Qed.

Lemma drop_all (n : nat) (s : string) :
  (String.length s <= n)%nat -> drop n s = "".
Proof.
  revert s; induction n as [|n IH]; intros [|c s]; simpl; intros H;
    try reflexivity; try lia.
  apply IH; lia.
Qed.

Lemma startsWith_iff (s p : string) :
  startsWith s p = true <-> exists t, s = p ++ t.
Proof.
  revert s; induction p as [|a p IH]; intros s.
  - split; [intros _; now exists s | intros _; now destruct s].
  - destruct s as [|b s]; simpl.
    + split; [discriminate | intros [t H]; discriminate].
    + rewrite andb_true_iff, Ascii.eqb_eq, IH. split.
      * intros [-> [t ->]]. now exists t.
      * intros [t H]. inversion H; subst. split; [reflexivity | now exists t].
Qed.

Lemma startsWith_app (p t : string) : startsWith (p ++ t) p = true.
Proof. apply startsWith_iff. now exists t. Qed.

Lemma OccursAt_zero (p s : string) : OccursAt p s 0 <-> startsWith s p = true.
Proof.
  rewrite startsWith_iff. split.
  - intros (pre & post & -> & Hlen). destruct pre; [|discriminate]. now exists post.
  - intros [t ->]. now exists "", t.
Qed.

Lemma OccursAt_succ (p : string) (c : ascii) (s : string) (i : nat) :
  OccursAt p (String c s) (S i) <-> OccursAt p s i.
Proof.
  split.
  - intros (pre & post & H & Hlen). destruct pre as [|x pre]; [discriminate|].
    simpl in H, Hlen. inversion H; subst. exists pre, post. split; [reflexivity | lia].
  - intros (pre & post & -> & Hlen). exists (String c pre), post.
    split; [reflexivity | simpl; lia].
Qed.

Lemma OccursAt_empty (p : string) (i : nat) : OccursAt p "" i -> i = 0%nat.
Proof.
  intros (pre & post & H & Hlen). destruct pre; [simpl in Hlen; lia | discriminate].
Qed.

Lemma firstOccurrence_None (s p : string) :
  firstOccurrence s p = None -> forall i, ~ OccursAt p s i.
Proof.
  induction s as [|c s IH]; cbn [firstOccurrence].
  - destruct (startsWith "" p) eqn:Hp; [discriminate|]. intros _ i Hi.
    pose proof (OccursAt_empty _ _ Hi); subst.
    apply OccursAt_zero in Hi. congruence.
  - destruct (startsWith (String c s) p) eqn:Hp; [discriminate|].
    destruct (firstOccurrence s p) eqn:Hk; [discriminate|].
    intros _ [|i] Hi.
    + apply OccursAt_zero in Hi. congruence.
    + apply OccursAt_succ in Hi. now apply (IH eq_refl i).
Qed.

(** [firstOccurrence] finds the least index where the pattern occurs. *)
Lemma firstOccurrence_Some (s p : string) (i : nat) :
  firstOccurrence s p = Some i <->
  OccursAt p s i /\ forall j, OccursAt p s j -> (i <= j)%nat.
Proof.
  revert i; induction s as [|c s IH]; intros i; cbn [firstOccurrence].
  - destruct (startsWith "" p) eqn:Hp.
    + split.
      * intros [= <-]. split; [now apply OccursAt_zero | intros; lia].
      * intros [Hi _]. apply OccursAt_empty in Hi. now subst.
    + split; [discriminate|]. intros [Hi _].
      pose proof (OccursAt_empty _ _ Hi); subst.
      apply OccursAt_zero in Hi. congruence.
  - destruct (startsWith (String c s) p) eqn:Hp.
    + split.
      * intros [= <-]. split; [now apply OccursAt_zero | intros; lia].
      * intros [_ Hmin]. apply OccursAt_zero in Hp. apply Hmin in Hp.
        f_equal; lia.
    + destruct (firstOccurrence s p) as [k|] eqn:Hk; simpl.
      * destruct (proj1 (IH k) eq_refl) as [Hocc Hmin]. split.
        -- intros [= <-]. split; [now apply OccursAt_succ|].
           intros [|j] Hj; [apply OccursAt_zero in Hj; congruence|].
           apply OccursAt_succ, Hmin in Hj. lia.
        -- intros [Hi Hmin']. destruct i as [|i].
           ++ apply OccursAt_zero in Hi. congruence.
           ++ apply OccursAt_succ in Hi. apply Hmin in Hi.
              assert (S k <= S i)%nat by lia.
              assert (S i <= S k)%nat by (apply Hmin'; now apply OccursAt_succ).
              f_equal; lia.
      * split; [discriminate|]. intros [Hi _]. destruct i as [|i].
        -- apply OccursAt_zero in Hi. congruence.
        -- apply OccursAt_succ in Hi.
           exfalso. exact (firstOccurrence_None s p Hk i Hi).
Qed.

Lemma includes_iff (s p : string) :
  includes s p = true <-> exists pre post, s = pre ++ p ++ post.
Proof.
  unfold includes. destruct (firstOccurrence s p) as [i|] eqn:Hi.
  - apply firstOccurrence_Some in Hi as [(pre & post & -> & _) _].
    split; [intros _; now exists pre, post | reflexivity].
  - split; [discriminate|]. intros (pre & post & ->). exfalso.
    apply (firstOccurrence_None _ _ Hi (String.length pre)). now exists pre, post.
Qed.

(** [slice] after the first occurrence of the pattern. *)
Lemma slice_after_first (pre p post : string) :
  (forall j, OccursAt p (pre ++ p ++ post) j -> (String.length pre <= j)%nat) ->
  slice (pre ++ p ++ post)
        (indexOf (pre ++ p ++ post) p + Z.of_nat (String.length p)) = post.
Proof.
  intros Hmin. unfold indexOf.
  assert (H : firstOccurrence (pre ++ p ++ post) p = Some (String.length pre)).
  { apply firstOccurrence_Some. split; [now exists pre, post | exact Hmin]. }
  rewrite H. unfold slice.
  rewrite !length_app_s.
  replace (Z.of_nat (String.length pre) + Z.of_nat (String.length p) <? 0)%Z with false
    by (symmetry; apply Z.ltb_ge; lia).
  rewrite Z.min_l by lia.
  replace (Z.to_nat (Z.of_nat (String.length pre) + Z.of_nat (String.length p)))
    with (String.length (pre ++ p)) by (rewrite length_app_s; lia).
  rewrite <- app_assoc_s. apply drop_app.
Qed.

End StringFacts.

(** ** C7: [rename] *)

Lemma includes_slash_false (s : string) :
  JsString.includes s "/" = false <-> forall pre post, s <> pre ++ "/" ++ post.
Proof.
  split.
  - intros H pre post ->.
    assert (JsString.includes (pre ++ "/" ++ post) "/" = true)
      by (apply includes_iff; now exists pre, post).
    congruence.
  - intros H. destruct (JsString.includes s "/") eqn:Hi; [|reflexivity].
    apply includes_iff in Hi as (pre & post & ->). now destruct (H pre post).
Qed.

(** C7.  A new basename with a slash in it makes [rename] throw
    [Invalid basename] and leaves the Node, hence its source, as it was;
    a new basename without a slash makes [rename] behave as [move] to
    the directory of the current source joined with the new basename. *)
Theorem rename_checks_then_moves (now : Date) (newBasename : string) (n : Node.t) :
  ((exists pre post, newBasename = pre ++ "/" ++ post) ->
     Node.rename now newBasename n = (Thrown "Invalid basename", n)
     /\ Node.source (snd (Node.rename now newBasename n)) = Node.source n)
  /\ ((forall pre post, newBasename <> pre ++ "/" ++ post) ->
     Node.rename now newBasename n
     = Node.move now (path.dirname (Node.source n) ++ "/" ++ newBasename) n).
Proof.
  unfold Node.rename, MethodM.bind, MethodM.this, MethodM.throw. split.
  - intros H. apply includes_iff in H. rewrite H. split; reflexivity.
  - intros H. apply includes_slash_false in H. now rewrite H.
Qed.

Lemma rename_checks_then_moves_witness :
  (Node.rename 2000%Z "new/folder" Samples.home
     = (Thrown "Invalid basename", Samples.home)
   /\ Node.source (snd (Node.rename 2000%Z "new/folder" Samples.home))
      = Node.source Samples.home)
  /\ Node.rename 2000%Z "emil" Samples.home
     = Node.move 2000%Z "https://cloud.domain.com/remote.php/dav/files/emil" Samples.home.
Proof.
  split.
  - apply (proj1 (rename_checks_then_moves 2000%Z "new/folder" Samples.home)).
    now exists "new", "folder".
  - apply (proj2 (rename_checks_then_moves 2000%Z "emil" Samples.home)).
    apply includes_slash_false. reflexivity.
Defined.

(** ** C8: [owner] and [permissions] *)

Lemma search_from_None (re : RegExp) (s : string) (k q : nat) :
  JsRegExp.search_from re s q k = None <->
  forall j, (q <= j <= q + k)%nat -> exec_at re s j = None.
Proof.
  revert q; induction k as [|k IH]; intros q; simpl.
  - destruct (exec_at re s q) as [[e caps]|] eqn:Hq.
    + split; [discriminate|]. intros H. rewrite H in Hq by lia. discriminate.
    + split; [|reflexivity]. intros _ j Hj. now replace j with q by lia.
  - destruct (exec_at re s q) as [[e caps]|] eqn:Hq.
    + split; [discriminate|]. intros H. rewrite H in Hq by lia. discriminate.
    + rewrite IH. split.
      * intros H j Hj. destruct (Nat.eq_dec j q) as [->|]; [assumption|].
        apply H. lia.
      * intros H j Hj. apply H. lia.
Qed.

Lemma search_from_Some (re : RegExp) (s : string) (k q0 q e : nat) :
  JsRegExp.search_from re s q0 k = Some (q, e) ->
  (q0 <= q <= q0 + k)%nat
  /\ (exists caps, exec_at re s q = Some (e, caps))
  /\ forall j, (q0 <= j < q)%nat -> exec_at re s j = None.
Proof.
  revert q0; induction k as [|k IH]; intros q0; simpl.
  - destruct (exec_at re s q0) as [[e0 caps]|] eqn:Hq; [|discriminate].
    intros [= <- <-]. split; [lia|]. split; [now exists caps | intros; lia].
  - destruct (exec_at re s q0) as [[e0 caps]|] eqn:Hq.
    + intros [= <- <-]. split; [lia|]. split; [now exists caps | intros; lia].
    + intros H. apply IH in H as (Hr & Hc & Hn). split; [lia|]. split; [exact Hc|].
      intros j Hj. destruct (Nat.eq_dec j q0) as [->|]; [assumption|].
      apply Hn. lia.
Qed.

(** A source is that of a DAV resource exactly when the service pattern
    matches somewhere in it. *)
Lemma isDavRessource_iff (source : string) (davService : RegExp) :
  isDavRessource source davService = true <->
  exists q e caps, (q <= String.length source)%nat
                   /\ exec_at davService source q = Some (e, caps).
Proof.
  unfold isDavRessource, JsRegExp.matches, JsRegExp.search.
  destruct (JsRegExp.search_from davService source 0 (String.length source))
    as [[q e]|] eqn:Hs.
  - split; [intros _|reflexivity].
    apply search_from_Some in Hs as (Hr & [caps Hc] & _).
    exists q, e, caps. split; [lia | exact Hc].
  - split; [discriminate|]. intros (q & e & caps & Hq & Hm).
    rewrite search_from_None in Hs. rewrite Hs in Hm by lia. discriminate.
Qed.

(** C8.  For every Node: when the owner read is null and the Node is not
    a DAV resource, the permissions read are READ whatever was supplied;
    otherwise they are the supplied permissions, or NONE when none were
    supplied.  The owner read is null for a Node that is not a DAV
    resource, whatever was supplied, and the supplied owner otherwise.
    Being a DAV resource means that the service pattern matches somewhere
    in the source. *)
Theorem permissions_and_owner (n : Node.t) :
  let supplied := match NodeData.permissions (Node._data n) with
                  | Some p => p
                  | None => Permission.NONE
                  end in
  (Node.owner n = owner_null -> Node.isDavRessource n = false ->
     Node.permissions n = Permission.READ)
  /\ (~ (Node.owner n = owner_null /\ Node.isDavRessource n = false) ->
     Node.permissions n = supplied)
  /\ (Node.isDavRessource n = false -> Node.owner n = owner_null)
  /\ (Node.isDavRessource n = true -> Node.owner n = NodeData.owner (Node._data n))
  /\ (Node.isDavRessource n = true <->
      exists q e caps, (q <= String.length (Node.source n))%nat
        /\ exec_at (Node._knownDavService n) (Node.source n) q = Some (e, caps)).
Proof.
  intros supplied. unfold Node.permissions, Node.owner; subst supplied.
  repeat split.
  - intros Ho Hd. rewrite Hd in *. reflexivity.
  - intros H. destruct (Node.isDavRessource n) eqn:Hd; simpl in *.
    + now rewrite andb_false_r.
    + exfalso. apply H. split; reflexivity.
  - intros Hd. now rewrite Hd.
  - intros Hd. now rewrite Hd.
  - apply isDavRessource_iff.
  - apply isDavRessource_iff.
Qed.

Lemma permissions_and_owner_witness :
  (Node.owner Samples.remote = owner_null /\ Node.isDavRessource Samples.remote = false
   /\ Node.permissions Samples.remote = Permission.READ)
  /\ (Node.isDavRessource Samples.picture = true
      /\ Node.owner Samples.picture = owner_name "emma"
      /\ Node.permissions Samples.picture = Permission.NONE).
Proof.
  split.
  - destruct (permissions_and_owner Samples.remote) as (Hread & _ & Hnull & _).
    assert (Hd : Node.isDavRessource Samples.remote = false) by reflexivity.
    split; [exact (Hnull Hd)|]. split; [exact Hd|]. exact (Hread (Hnull Hd) Hd).
  - destruct (permissions_and_owner Samples.picture) as (_ & Hsupplied & _ & Howner & _).
    assert (Hd : Node.isDavRessource Samples.picture = true) by reflexivity.
    split; [exact Hd|]. split; [exact (Howner Hd)|].
    apply Hsupplied. intros [_ Hf]. rewrite Hd in Hf. discriminate.
Defined.

(** ** C9: duplicates in the two registries *)

Lemma initialize_run (w : FileActions.Window) :
  exists w', FileActions.initialize w = (Returned (registry w), w')
             /\ FileActions._nc_fileactions w' = Some (registry w).
Proof.
  unfold FileActions.initialize, registry, MethodM.bind, MethodM.this.
  destruct w as [[l|] lg]; simpl; eexists; split; reflexivity.
Qed.

Lemma find_same_id (a : FileActions.FileAction) (l : list FileActions.FileAction) :
  (exists a0, In a0 l /\ FileActions.action_id a0 = FileActions.action_id a) <->
  List.find (fun search => FileActions.action_id search =? FileActions.action_id a) l
    <> None.
Proof.
  split.
  - intros (a0 & Hin & Hid) Hnone.
    apply (find_none _ _ Hnone) in Hin. apply String.eqb_neq in Hin. contradiction.
  - destruct (List.find _ l) as [a0|] eqn:Hf; [intros _|congruence].
    apply find_some in Hf as [Hin Hid]. apply String.eqb_eq in Hid. now exists a0.
Qed.

Lemma registerFileAction_duplicate (w : FileActions.Window) (a : FileActions.FileAction) :
  (exists a0, In a0 (registry w) /\ FileActions.action_id a0 = FileActions.action_id a) ->
  fst (FileActions.registerFileAction a w) = Returned tt
  /\ registry (snd (FileActions.registerFileAction a w)) = registry w.
Proof.
  intros Hdup. apply find_same_id in Hdup.
  destruct (initialize_run w) as (w' & Hinit & Hw').
  unfold FileActions.registerFileAction. rewrite (bind_returned _ _ _ _ _ Hinit).
  destruct (List.find _ (registry w)); [|congruence].
  unfold FileActions.logged, MethodM.assign, registry; simpl. now rewrite Hw'.
Qed.

Lemma registerFileAction_fresh (w : FileActions.Window) (a : FileActions.FileAction) :
  (forall a0, In a0 (registry w) -> FileActions.action_id a0 <> FileActions.action_id a) ->
  fst (FileActions.registerFileAction a w) = Returned tt
  /\ registry (snd (FileActions.registerFileAction a w)) = (registry w ++ [a])%list.
Proof.
  intros Hfresh.
  destruct (initialize_run w) as (w' & Hinit & Hw').
  unfold FileActions.registerFileAction. rewrite (bind_returned _ _ _ _ _ Hinit).
  destruct (List.find _ (registry w)) as [a0|] eqn:Hf.
  - apply find_some in Hf as [Hin Hid]. apply String.eqb_eq in Hid.
    now destruct (Hfresh a0 Hin).
  - split; reflexivity.
Qed.

Lemma hasId_iff (key : string) (e : NewFileMenu.Entry) :
  NewFileMenu.hasId key e = true <-> NewFileMenu.id e = VString key.
Proof.
  unfold NewFileMenu.hasId. destruct (NewFileMenu.id e); try (split; discriminate).
  rewrite String.eqb_eq. split; [now intros -> | now intros [= ->]].
Qed.

Lemma getEntryIndex_Some (entries : list NewFileMenu.Entry) (key : string) :
  (exists e, In e entries /\ NewFileMenu.id e = VString key) <->
  NewFileMenu.getEntryIndex entries key <> None.
Proof.
  induction entries as [|e0 entries IH]; simpl.
  - split; [intros (e & [] & _) | congruence].
  - destruct (NewFileMenu.hasId key e0) eqn:Hh.
    + split; [discriminate|]. intros _. exists e0.
      split; [now left | now apply hasId_iff].
    + split.
      * intros (e & [<-|Hin] & He).
        -- apply hasId_iff in He. congruence.
        -- assert (NewFileMenu.getEntryIndex entries key <> None)
             by (apply IH; now exists e).
           destruct (NewFileMenu.getEntryIndex entries key); [discriminate|congruence].
      * intros H. destruct (NewFileMenu.getEntryIndex entries key) eqn:Hg;
          [|now destruct H].
        destruct (proj2 IH) as (e & Hin & He); [discriminate|].
        exists e. split; [now right | exact He].
Qed.

Lemma registerEntry_duplicate (menu : NewFileMenu.t) (entry : NewFileMenu.Entry)
      (key : string) :
  NewFileMenu.validateFields entry = Returned tt ->
  NewFileMenu.id entry = VString key ->
  (exists e, In e (NewFileMenu._entries menu) /\ NewFileMenu.id e = VString key) ->
  NewFileMenu.registerEntry entry menu = (Thrown "Duplicate entry", menu).
Proof.
  intros Hvalid Hid Hdup. apply getEntryIndex_Some in Hdup.
  unfold NewFileMenu.registerEntry, MethodM.bind, MethodM.call, MethodM.this.
  rewrite Hvalid, Hid.
  destruct (NewFileMenu.getEntryIndex _ key); [reflexivity | congruence].
Qed.

Lemma registerEntry_returned (menu menu' : NewFileMenu.t) (entry : NewFileMenu.Entry) :
  NewFileMenu.registerEntry entry menu = (Returned tt, menu') ->
  NewFileMenu.validateFields entry = Returned tt
  /\ (exists key, NewFileMenu.id entry = VString key)
  /\ NewFileMenu._entries menu' = (NewFileMenu._entries menu ++ [entry])%list.
Proof.
  unfold NewFileMenu.registerEntry, MethodM.bind, MethodM.call, MethodM.this,
    MethodM.throw, MethodM.assign.
  destruct (NewFileMenu.validateFields entry) as [[]|]; [|discriminate].
  destruct (NewFileMenu.id entry) eqn:Hid; try discriminate.
  destruct (NewFileMenu.getEntryIndex _ _); [discriminate|].
  intros [= <-]. split; [reflexivity|]. split; [now eexists | reflexivity].
Qed.

(** C9.  Registering a file action whose id is that of an action already
    in the registry returns without throwing and leaves the registry as
    it was, so that of two registrations under one id the first is kept.
    Registering a well-formed menu entry whose id is that of an entry
    already registered throws [Duplicate entry] and leaves the menu as it
    was, so that after a successful registration a second one under the
    same id throws and the first entry stays registered once. *)
Theorem duplicate_registrations :
  (forall w a,
     (exists a0, In a0 (registry w)
                 /\ FileActions.action_id a0 = FileActions.action_id a) ->
     fst (FileActions.registerFileAction a w) = Returned tt
     /\ registry (snd (FileActions.registerFileAction a w)) = registry w)
  /\ (forall w a1 a2,
     FileActions.action_id a2 = FileActions.action_id a1 ->
     (forall a0, In a0 (registry w) ->
                 FileActions.action_id a0 <> FileActions.action_id a1) ->
     let w1 := snd (FileActions.registerFileAction a1 w) in
     fst (FileActions.registerFileAction a1 w) = Returned tt
     /\ fst (FileActions.registerFileAction a2 w1) = Returned tt
     /\ registry (snd (FileActions.registerFileAction a2 w1)) = (registry w ++ [a1])%list)
  /\ (forall menu entry key,
     NewFileMenu.validateFields entry = Returned tt ->
     NewFileMenu.id entry = VString key ->
     (exists e, In e (NewFileMenu._entries menu) /\ NewFileMenu.id e = VString key) ->
     NewFileMenu.registerEntry entry menu = (Thrown "Duplicate entry", menu))
  /\ (forall menu menu1 entry1 entry2,
     NewFileMenu.registerEntry entry1 menu = (Returned tt, menu1) ->
     NewFileMenu.validateFields entry2 = Returned tt ->
     NewFileMenu.id entry2 = NewFileMenu.id entry1 ->
     NewFileMenu._entries menu1 = (NewFileMenu._entries menu ++ [entry1])%list
     /\ NewFileMenu.registerEntry entry2 menu1 = (Thrown "Duplicate entry", menu1)).
Proof.
  split; [exact registerFileAction_duplicate|].
  split; [|split; [exact registerEntry_duplicate|]].
  - intros w a1 a2 Hid Hfresh w1.
    destruct (registerFileAction_fresh w a1 Hfresh) as [Hret Hreg].
    split; [exact Hret|].
    destruct (registerFileAction_duplicate w1 a2) as [Hret2 Hreg2].
    + exists a1. split; [|now symmetry]. subst w1. rewrite Hreg.
      apply in_or_app. right. now left.
    + split; [exact Hret2|]. now rewrite Hreg2.
  - intros menu menu1 entry1 entry2 Hrun Hvalid Hid.
    apply registerEntry_returned in Hrun as (_ & [key Hkey] & Hentries).
    split; [exact Hentries|].
    apply (registerEntry_duplicate menu1 entry2 key Hvalid); [congruence|].
    exists entry1. split; [|exact Hkey]. rewrite Hentries.
    apply in_or_app. right. now left.
Qed.

Lemma duplicate_registrations_witness :
  (fst (FileActions.registerFileAction (Samples.action "delete" VUndefined) Samples.window)
     = Returned tt
   /\ fst (FileActions.registerFileAction (Samples.action "delete" (VNumber (Int 5)))
             (snd (FileActions.registerFileAction (Samples.action "delete" VUndefined)
                     Samples.window)))
      = Returned tt
   /\ registry (snd (FileActions.registerFileAction (Samples.action "delete" (VNumber (Int 5)))
             (snd (FileActions.registerFileAction (Samples.action "delete" VUndefined)
                     Samples.window))))
      = [Samples.action "delete" VUndefined])
  /\ (NewFileMenu._entries
        (snd (NewFileMenu.registerEntry Samples.empty_file NewFileMenu.empty))
      = [Samples.empty_file]
      /\ NewFileMenu.registerEntry Samples.empty_file
           (snd (NewFileMenu.registerEntry Samples.empty_file NewFileMenu.empty))
         = (Thrown "Duplicate entry",
            snd (NewFileMenu.registerEntry Samples.empty_file NewFileMenu.empty))).
Proof.
  destruct duplicate_registrations as (_ & Hactions & _ & Hentries). split.
  - apply (Hactions Samples.window (Samples.action "delete" VUndefined)
             (Samples.action "delete" (VNumber (Int 5)))).
    + reflexivity.
    + intros a0 [].
  - apply (Hentries NewFileMenu.empty _ Samples.empty_file Samples.empty_file);
      reflexivity.
Defined.

(** ** C5: [fileid] *)

(** C5, at an id of zero.  The file of the test [FileId attributes
    fallback] with the id 0 added is accepted by the constructor, and its
    [fileid] is the [fileid] of the attributes, 1234, not the id; without
    attributes it is [undefined]. *)
Theorem fileid_skips_id_zero :
  let zero := Samples.bag "https://cloud.domain.com/remote.php/dav/picture.jpg"
                (VString "image/jpeg") (VString "emma") VUndefined (VNumber (Int 0)) in
  (exists n, Node.new File (zero (VObject [("fileid", VNumber (Int 1234))]) VUndefined) None
             = Returned n
             /\ NodeData.id (Node._data n) = Some (Int 0)
             /\ Node.fileid n = VNumber (Int 1234))
  /\ (exists n, Node.new File (zero VUndefined VUndefined) None = Returned n
                /\ NodeData.id (Node._data n) = Some (Int 0)
                /\ Node.fileid n = VUndefined).
Proof.
  intros zero. split; eexists; (split; [reflexivity|]); split; reflexivity.
Qed.

(** For any other id that was supplied and is not NaN, [fileid] is the id. *)
Lemma fileid_of_id (n : Node.t) (z : Z) :
  NodeData.id (Node._data n) = Some (Int z) -> z <> 0%Z ->
  Node.fileid n = VNumber (Int z).
Proof.
  intros Hid Hz. unfold Node.fileid. rewrite Hid. simpl.
  destruct (Z.eqb_spec z 0); [contradiction | reflexivity].
Qed.

(** Without an id, [fileid] is the [fileid] of the attributes. *)
Lemma fileid_of_attributes (n : Node.t) :
  NodeData.id (Node._data n) = None ->
  Node.fileid n = getProperty (Node.attributes n) "fileid".
Proof. intros Hid. unfold Node.fileid. now rewrite Hid. Qed.

(** ** C3: the ending slash of [source] *)

(** C3, at a source ending with two slashes.  The folder of the test
    [Remove source ending slash] with one more slash at the end of its
    source is accepted by the constructor, and its [source] still ends
    with a slash. *)
Theorem source_keeps_one_of_two_slashes :
  exists n,
    Node.new Folder
      (Samples.bag "https://cloud.domain.com/remote.php/dav/files/emma/Photos//"
         VUndefined (VString "emma") VUndefined VUndefined VUndefined VUndefined) None
    = Returned n
    /\ Node.source n = "https://cloud.domain.com/remote.php/dav/files/emma/Photos/"
    /\ JsString.endsWithSlash (Node.source n) = true.
Proof. eexists. split; [reflexivity|]. split; reflexivity. Qed.

(** [source] ends with a slash exactly when two slashes end the stored
    source: one is removed, the one before it stays. *)
Lemma source_ends_with_slash (n : Node.t) :
  JsString.endsWithSlash (Node.source n)
  = JsString.endsWithSlash (NodeData.source (Node._data n))
    && JsString.endsWithSlash (JsString.init (NodeData.source (Node._data n))).
Proof.
  unfold Node.source, JsString.replaceEndingSlash.
  destruct (JsString.endsWithSlash (NodeData.source (Node._data n))) eqn:He;
    [reflexivity | exact He].
Qed.

(** When at most one slash ends the stored source, none ends [source]. *)
Lemma source_without_ending_slash (n : Node.t) :
  JsString.endsWithSlash (JsString.init (NodeData.source (Node._data n))) = false ->
  JsString.endsWithSlash (Node.source n) = false.
Proof. intros H. rewrite source_ends_with_slash, H. apply andb_false_r. Qed.

(** ** C6: the rule on [id] *)

Lemma validId_false (v : JsValue) :
  truthyNonNumber v = true -> Validation.validId v = false.
Proof. destruct v; simpl; intros H; try reflexivity; discriminate. Qed.

Lemma new_thrown_by_validateData variant data davService e :
  validateData variant data
    (match davService with Some re => re | None => knownDavService end) = Thrown e ->
  Node.new variant data davService = Thrown e.
Proof. intros H. unfold Node.new. now rewrite H. Qed.

(** The error of a rejected bag is the message of one of the rules. *)
Lemma firstViolation_Thrown (rules : list (bool * string)) (e : string) :
  Validation.firstViolation rules = Thrown e -> In e (map snd rules).
Proof.
  induction rules as [|[[|] message] rules IH]; simpl; intros H.
  - discriminate.
  - right. now apply IH.
  - left. congruence.
Qed.

(** C6 as worded fails on the bag of the test [FileId negative fallback]:
    its id, -1234, is present and is not an integer at least 0, and the
    constructor returns a File whose [fileid] is -1234. *)
Lemma invalid_id_counterexample :
  let bag := Samples.file_bag "https://cloud.domain.com/remote.php/dav/picture.jpg"
               VUndefined (VNumber (Int (-1234))) in
  RawData.id bag = VNumber (Int (-1234))
  /\ (-1234 < 0)%Z
  /\ Node.new File bag None <> Thrown "Invalid id type of value"
  /\ exists n, Node.new File bag None = Returned n
               /\ Node.fileid n = VNumber (Int (-1234)).
Proof.
  intros bag. split; [reflexivity|]. split; [lia|]. split; [discriminate|].
  eexists. split; reflexivity.
Qed.

(** C6, amended.  A bag whose [id] is there, is not a number and is not
    falsy (a string that is not empty, [true], a Date, a function, an
    object) never makes a Node: the constructor throws [Invalid id type of
    value], whatever the other fields hold.  And no bag whose [id] is a
    number, a negative one or one that is not an integer included, or is
    left out, is refused with that error. *)
Theorem invalid_id_is_rejected (variant : FileType) (data : RawData.t)
        (davService : option RegExp) :
  (truthyNonNumber (RawData.id data) = true ->
     Node.new variant data davService = Thrown "Invalid id type of value")
  /\ (RawData.id data = VUndefined \/ (exists x, RawData.id data = VNumber x) ->
      Node.new variant data davService <> Thrown "Invalid id type of value").
Proof.
  split.
  - intros Hid. apply new_thrown_by_validateData. unfold validateData.
    now rewrite (validId_false _ Hid).
  - intros Hid Hnew.
    assert (Hvalid : Validation.validId (RawData.id data) = true)
      by (destruct Hid as [-> | [x ->]]; reflexivity).
    unfold Node.new in Hnew.
    destruct (validateData _ _ _) as [[]|e] eqn:Hv.
    + destruct (NodeData.ofRaw data); discriminate.
    + injection Hnew as ->. unfold validateData in Hv. rewrite Hvalid in Hv.
      cbn [negb] in Hv. cbv iota in Hv.
      destruct (RawData.source data); try discriminate.
      destruct (URL.parse s); [|discriminate].
      apply firstViolation_Thrown in Hv. simpl in Hv.
      repeat (destruct Hv as [Hv|Hv]; [discriminate|]). exact Hv.
Qed.

Lemma invalid_id_is_rejected_witness :
  (truthyNonNumber (RawData.id Samples.string_id) = true
   /\ Node.new File Samples.string_id None = Thrown "Invalid id type of value")
  /\ ((exists x, RawData.id Samples.negative_id = VNumber x)
      /\ Node.new File Samples.negative_id None <> Thrown "Invalid id type of value").
Proof.
  split.
  - split; [reflexivity|].
    exact (proj1 (invalid_id_is_rejected File Samples.string_id None) eq_refl).
  - assert (H : exists x, RawData.id Samples.negative_id = VNumber x)
      by (eexists; reflexivity).
    split; [exact H|].
    exact (proj2 (invalid_id_is_rejected File Samples.negative_id None) (or_intror H)).
Defined.

(** ** Validated bags are well typed *)

Lemma typed_id (v : JsValue) :
  Validation.validId v = true ->
  exists o, NodeData.optional NodeData.asNumber v = Some o /\ NodeData.opt VNumber o = v.
Proof.
  destruct v as [| | |[z| | |]| | | |]; try discriminate; intros _;
    eexists; split; reflexivity.
Qed.

Lemma typed_date (v : JsValue) :
  Validation.validDate v = true ->
  exists o, NodeData.optional NodeData.asDate v = Some o /\ NodeData.opt VDate o = v.
Proof.
  destruct v; try discriminate; intros _; eexists; split; reflexivity.
Qed.

Lemma typed_size (v : JsValue) :
  Validation.validSize v = true ->
  exists o, NodeData.optional NodeData.asNumber v = Some o /\ NodeData.opt VNumber o = v.
Proof.
  destruct v; try discriminate; intros _; eexists; split; reflexivity.
Qed.

Lemma typed_mime (variant : FileType) (v : JsValue) :
  Validation.validMime variant v = true ->
  exists o, NodeData.optional NodeData.asString v = Some o /\ NodeData.opt VString o = v.
Proof.
  destruct variant, v; try discriminate; intros _; eexists; split; reflexivity.
Qed.

Lemma typed_attributes (v : JsValue) :
  Validation.validAttributes v = true ->
  exists o, NodeData.optional NodeData.asAttribute v = Some o
            /\ NodeData.opt VObject o = v.
Proof.
  destruct v; try discriminate; intros _; eexists; split; reflexivity.
Qed.

Lemma typed_permissions (v : JsValue) :
  Validation.validPermissions v = true ->
  exists o, NodeData.optional NodeData.asPermission v = Some o
            /\ NodeData.opt (fun z => VNumber (Int z)) o = v.
Proof.
  destruct v as [| | |[z| | |]| | | |]; try discriminate; intros _;
    eexists; split; reflexivity.
Qed.

Lemma typed_owner (v : JsValue) :
  Validation.validOwner v = true ->
  exists o, NodeData.asOwner v = Some o
            /\ match o with
               | owner_undefined => VUndefined
               | owner_null => VNull
               | owner_name s => VString s
               end = v.
Proof.
  destruct v; try discriminate; intros _; eexists; split; reflexivity.
Qed.

Lemma typed_root (v : JsValue) :
  Validation.validRootType v = true ->
  exists o, NodeData.optional NodeData.asString v = Some o /\ NodeData.opt VString o = v.
Proof.
  destruct v; try discriminate; intros _; eexists; split; reflexivity.
Qed.

Lemma NodeStatus_value_of (s : string) (st : NodeStatus) :
  NodeStatus_of_value s = Some st -> NodeStatus_value st = s.
Proof.
  unfold NodeStatus_of_value.
  destruct (String.eqb_spec s "new"); [intros [= <-]; now subst|].
  destruct (String.eqb_spec s "failed"); [intros [= <-]; now subst|].
  destruct (String.eqb_spec s "loading"); [intros [= <-]; now subst|].
  destruct (String.eqb_spec s "locked"); [intros [= <-]; now subst|].
  discriminate.
Qed.

Lemma typed_status (v : JsValue) :
  Validation.validStatus v = true ->
  exists o, NodeData.optional NodeData.asStatus v = Some o
            /\ NodeData.opt (fun st => VString (NodeStatus_value st)) o = v.
Proof.
  destruct v as [| | | |s| | |]; try discriminate.
  - intros _. eexists; split; reflexivity.
  - simpl. destruct (NodeStatus_of_value s) as [st|] eqn:Hst; [|discriminate].
    intros _. exists (Some st). split; [reflexivity|].
    simpl. now rewrite (NodeStatus_value_of s st Hst).
Qed.

Lemma firstViolation_Returned (rules : list (bool * string)) :
  Validation.firstViolation rules = Returned tt ->
  Forall (fun rule => fst rule = true) rules.
Proof.
  induction rules as [|[[|] message] rules IH]; simpl; intros H.
  - constructor.
  - constructor; [reflexivity | now apply IH].
  - discriminate.
Qed.

(** A bag that passes the validation reads at the declared type, and
    nothing is lost: seen again as a run-time bag it is the same bag.  So
    the constructor never reaches its type error, and [move] validates the
    bag that the constructor accepted, but for the source. *)
Lemma validated_bag_is_typed (variant : FileType) (raw : RawData.t) (re : RegExp) :
  validateData variant raw re = Returned tt ->
  exists d, NodeData.ofRaw raw = Some d /\ NodeData.toRaw d = raw.
Proof.
  unfold validateData.
  destruct (Validation.validId (RawData.id raw)) eqn:Hid; [|discriminate].
  cbn [negb]. cbv iota.
  destruct (RawData.source raw) as [| | | |src| | |] eqn:Hsrc; try discriminate.
  destruct (URL.parse src) as [url|] eqn:Hparse; [|discriminate].
  intros H. apply firstViolation_Returned in H.
  repeat match goal with
         | H : Forall _ (_ :: _) |- _ => inversion H; subst; clear H
         end.
  simpl in *.
  repeat match goal with
         | H : Validation.validId _ = true |- _ => apply typed_id in H as (? & ? & ?)
         | H : Validation.validDate _ = true |- _ => apply typed_date in H as (? & ? & ?)
         | H : Validation.validSize _ = true |- _ => apply typed_size in H as (? & ? & ?)
         | H : Validation.validMime _ _ = true |- _ => apply typed_mime in H as (? & ? & ?)
         | H : Validation.validAttributes _ = true |- _ =>
             apply typed_attributes in H as (? & ? & ?)
         | H : Validation.validPermissions _ = true |- _ =>
             apply typed_permissions in H as (? & ? & ?)
         | H : Validation.validOwner _ = true |- _ => apply typed_owner in H as (? & ? & ?)
         | H : Validation.validRootType _ = true |- _ => apply typed_root in H as (? & ? & ?)
         | H : Validation.validStatus _ = true |- _ => apply typed_status in H as (? & ? & ?)
         end.
  unfold NodeData.ofRaw.
  repeat match goal with
         | H : NodeData.optional _ _ = Some _ |- _ => rewrite H; clear H
         | H : NodeData.asOwner _ = Some _ |- _ => rewrite H; clear H
         end.
  rewrite Hsrc. simpl. eexists. split; [reflexivity|].
  unfold NodeData.toRaw. simpl. destruct raw; simpl in *. congruence.
Qed.

(** The constructor throws only what the validation throws. *)
Lemma new_throws_the_validation_error (variant : FileType) (raw : RawData.t)
      (davService : option RegExp) (e : string) :
  Node.new variant raw davService = Thrown e ->
  validateData variant raw
    (match davService with Some re => re | None => knownDavService end) = Thrown e.
Proof.
  unfold Node.new.
  destruct (validateData _ _ _) as [[]|e'] eqn:Hv; [|now intros [= ->]].
  destruct (validated_bag_is_typed _ _ _ Hv) as (d & -> & _). discriminate.
Qed.

(** ** C10 and C4: [path] and [dirname] relative to a supplied root *)

Lemma replaceRootSlash_nonempty (r0 : string) :
  r0 <> "" -> JsString.replaceRootSlash r0 <> "".
Proof.
  intros H. unfold JsString.replaceRootSlash.
  destruct (JsString.endsWithSlash r0); simpl; [|exact H].
  destruct (JsString.init r0 =? "") eqn:Hi; simpl; [exact H|].
  destruct (JsString.noLineTerminator (JsString.init r0)); [|exact H].
  now apply String.eqb_neq.
Qed.

Lemma root_of_supplied (n : Node.t) (r0 : string) :
  NodeData.root (Node._data n) = Some r0 -> r0 <> "" ->
  Node.root n = Some (JsString.replaceRootSlash r0)
  /\ Node.orNull (Node.root n) = Some (JsString.replaceRootSlash r0).
Proof.
  intros Hr Hne. unfold Node.root. rewrite Hr. simpl.
  apply String.eqb_neq in Hne. rewrite Hne. simpl. split; [reflexivity|].
  pose proof (replaceRootSlash_nonempty r0 (proj1 (String.eqb_neq _ _) Hne)) as H.
  apply String.eqb_neq in H. now rewrite H.
Qed.

(** With a root supplied, [path] is the text of the source after the
    first occurrence of the root read by the getter, or [/] when nothing
    follows, and [dirname] is the directory of that. *)
Lemma getters_after_first_occurrence (n : Node.t) (r0 pre rest : string) :
  NodeData.root (Node._data n) = Some r0 -> r0 <> "" ->
  Node.source n = pre ++ JsString.replaceRootSlash r0 ++ rest ->
  (forall j, OccursAt (JsString.replaceRootSlash r0) (Node.source n) j ->
             (String.length pre <= j)%nat) ->
  Node.path n = Returned (Node.orSlash rest)
  /\ Node.dirname n = Returned (path.dirname (Node.orSlash rest)).
Proof.
  intros Hr Hne Hsrc Hmin.
  destruct (root_of_supplied n r0 Hr Hne) as [_ Hroot].
  unfold Node.path, Node.dirname. rewrite Hroot.
  unfold Node.afterRoot. rewrite Hsrc in *.
  now rewrite (slice_after_first _ _ _ Hmin).
Qed.

(** C10.  Take a Node whose root was supplied and let [r] be the root as
    the getter reads it.  Cut the source at the first occurrence of [r]:
    [source = pre ++ r ++ rest] with no occurrence of [r] starting before
    the end of [pre].  Then [path] is [rest] (or [/] when [rest] is
    empty) and [dirname] is the directory of that.  In particular, when
    [r] occurs again later in the source, [rest] is not empty, [path] is
    exactly [rest] and [dirname] the directory of [rest]: the later
    occurrences play no part. *)
Theorem path_and_dirname_cut_at_first_occurrence
        (n : Node.t) (r0 pre rest : string) :
  NodeData.root (Node._data n) = Some r0 -> r0 <> "" ->
  let r := JsString.replaceRootSlash r0 in
  Node.source n = pre ++ r ++ rest ->
  (forall j, OccursAt r (Node.source n) j -> (String.length pre <= j)%nat) ->
  (Node.path n = Returned (Node.orSlash rest)
   /\ Node.dirname n = Returned (path.dirname (Node.orSlash rest)))
  /\ (forall j, OccursAt r (Node.source n) j -> j <> String.length pre ->
        Node.path n = Returned rest
        /\ Node.dirname n = Returned (path.dirname rest)).
Proof.
  intros Hr Hne r Hsrc Hmin.
  pose proof (getters_after_first_occurrence n r0 pre rest Hr Hne Hsrc Hmin) as Hget.
  split; [exact Hget|].
  intros j Hj Hneq.
  assert (Hrest : Node.orSlash rest = rest).
  { pose proof (Hmin j Hj) as Hle.
    destruct Hj as (pre' & post' & Heq & Hlen).
    assert (Hl : String.length (Node.source n)
                 = (String.length pre' + (String.length r + String.length post'))%nat)
      by (rewrite Heq, !length_app_s; reflexivity).
    rewrite Hsrc, !length_app_s in Hl.
    unfold Node.orSlash. destruct rest; [simpl in Hl; lia | reflexivity]. }
  now rewrite Hrest in Hget.
Qed.

Lemma path_and_dirname_cut_at_first_occurrence_witness :
  Node.path Samples.similar = Returned "/files/emma"
  /\ Node.dirname Samples.similar = Returned "/files".
Proof.
  assert (Hocc : forall j,
             OccursAt "/files/emma" (Node.source Samples.similar) j ->
             (String.length "https://domain.com/remote.php/dav" <= j)%nat).
  { intros j Hj.
    assert (Hfirst : JsString.firstOccurrence (Node.source Samples.similar) "/files/emma"
                     = Some (String.length "https://domain.com/remote.php/dav"))
      by reflexivity.
    apply firstOccurrence_Some in Hfirst as [_ Hmin]. now apply Hmin. }
  refine (proj2 (path_and_dirname_cut_at_first_occurrence Samples.similar "/files/emma"
                   "https://domain.com/remote.php/dav" "/files/emma"
                   eq_refl _ eq_refl Hocc)
                (String.length "https://domain.com/remote.php/dav/files/emma") _ _).
  - discriminate.
  - now exists "https://domain.com/remote.php/dav/files/emma", "".
  - discriminate.
Defined.

(** ** C4: the root, the path and the source *)

Lemma endsWithSlash_app (a b : string) :
  b <> "" -> JsString.endsWithSlash (a ++ b) = JsString.endsWithSlash b.
Proof.
  intros Hb. induction a as [|c a IH]; [reflexivity|].
  simpl. destruct (a ++ b) eqn:Hab.
  - destruct a; [simpl in Hab; contradiction | discriminate].
  - exact IH.
Qed.

Lemma ofRaw_source_root (raw : RawData.t) (d : NodeData.t) :
  NodeData.ofRaw raw = Some d ->
  RawData.source raw = VString (NodeData.source d)
  /\ NodeData.optional NodeData.asNumber (RawData.id raw) = Some (NodeData.id d)
  /\ NodeData.optional NodeData.asString (RawData.root raw) = Some (NodeData.root d)
  /\ NodeData.optional NodeData.asAttribute (RawData.attributes raw)
     = Some (NodeData.attributes d).
Proof.
  unfold NodeData.ofRaw.
  destruct (NodeData.asString (RawData.source raw)) as [src|] eqn:Hsrc; [|discriminate].
  destruct (NodeData.optional NodeData.asNumber _) eqn:Hid; [|discriminate].
  destruct (NodeData.optional NodeData.asDate (RawData.mtime raw)); [|discriminate].
  destruct (NodeData.optional NodeData.asDate (RawData.crtime raw)); [|discriminate].
  destruct (NodeData.optional NodeData.asString (RawData.mime raw)); [|discriminate].
  destruct (NodeData.optional NodeData.asNumber (RawData.size raw)); [|discriminate].
  destruct (NodeData.optional NodeData.asPermission _); [|discriminate].
  destruct (NodeData.asOwner _); [|discriminate].
  destruct (NodeData.optional NodeData.asAttribute _); [|discriminate].
  destruct (NodeData.optional NodeData.asString (RawData.root raw)); [|discriminate].
  destruct (NodeData.optional NodeData.asStatus _); [|discriminate].
  intros [= <-]. simpl. repeat split.
  destruct (RawData.source raw); try discriminate. now inversion Hsrc.
Qed.

(** A Node that the constructor returns: its data are the bag read at its
    type, less the attributes, and the bag passed the validation. *)
Lemma new_Returned (variant : FileType) (raw : RawData.t) (davService : option RegExp)
      (n : Node.t) :
  Node.new variant raw davService = Returned n ->
  exists d,
    validateData variant raw
      (match davService with Some re => re | None => knownDavService end) = Returned tt
    /\ NodeData.ofRaw raw = Some d
    /\ Node._data n = NodeData.without_attributes d
    /\ Node._attributes n = match NodeData.attributes d with Some a => a | None => [] end
    /\ Node._knownDavService n
       = match davService with Some re => re | None => knownDavService end
    /\ Node.type n = variant.
Proof.
  unfold Node.new.
  destruct (validateData _ _ _) as [[]|]; [|discriminate].
  destruct (NodeData.ofRaw raw) as [d|]; [|discriminate].
  intros [= <-]. exists d. repeat split.
Qed.

Lemma isSuffixOf_drop (t s : string) :
  JsString.isSuffixOf t s ->
  JsString.drop (String.length s - String.length t) s = t.
Proof.
  intros [pre ->]. rewrite length_app_s.
  replace (String.length pre + String.length t - String.length t)%nat
    with (String.length pre) by lia.
  apply drop_app.
Qed.

Lemma app_cut (a b c d : string) :
  a ++ b = c ++ d -> (String.length a <= String.length c)%nat ->
  exists x, c = a ++ x /\ b = x ++ d.
Proof.
  revert c; induction a as [|y a IH]; intros c H Hlen.
  - exists c. split; [reflexivity | exact H].
  - destruct c as [|z c]; [simpl in Hlen; lia|].
    simpl in H. injection H as -> H.
    destruct (IH c H) as (x & -> & ->); [simpl in Hlen; lia|].
    now exists x.
Qed.

(** C4 as worded fails on the folder of the test [Root and source are
    the same]: the path is [/], so the root followed by the path is
    [/files/emma/], which does not end the path of the source URL,
    [/remote.php/dav/files/emma]. *)
Lemma root_and_path_counterexample :
  Node.new Folder
    (Samples.bag "https://cloud.domain.com/remote.php/dav/files/emma" VUndefined
       (VString "emma") (VString "/files/emma") VUndefined VUndefined VUndefined) None
  = Returned Samples.home
  /\ Node.root Samples.home = Some "/files/emma"
  /\ Node.path Samples.home = Returned "/"
  /\ option_map URL.pathname (URL.parse (Node.source Samples.home))
     = Some "/remote.php/dav/files/emma"
  /\ ~ root_and_path_rebuild_the_url_path Samples.home.
Proof.
  repeat (split; [reflexivity|]).
  intros (r & p & d & url & Hr & Hp & _ & Hurl & Hsuffix & _).
  vm_compute in Hr, Hp, Hurl.
  injection Hr as <-; injection Hp as <-; injection Hurl as <-.
  apply isSuffixOf_drop in Hsuffix; vm_compute in Hsuffix; discriminate.
Qed.

(** Outside the amended claim: a root that occurs in the source before
    the path of the URL.  On a host named like the root, the getters cut
    the source in the host, and the path comes out as the whole path of
    the URL, root and service included. *)
Example path_of_a_root_met_in_the_host :
  Node.new File
    (Samples.bag "https://files/remote.php/dav/files/emma/a.txt" (VString "text/plain")
       (VString "emma") (VString "/files") VUndefined VUndefined VUndefined) None
  = Returned Samples.files_host
  /\ JsString.indexOf (Node.source Samples.files_host) "/files" = 7%Z
  /\ Node.root Samples.files_host = Some "/files"
  /\ Node.path Samples.files_host = Returned "/remote.php/dav/files/emma/a.txt"
  /\ option_map URL.pathname (URL.parse (Node.source Samples.files_host))
     = Some "/remote.php/dav/files/emma/a.txt".
Proof. repeat split; reflexivity. Qed.

(** C4, amended.  Take a Node whose root was supplied, [r] being the root
    as the getter reads it, and a text [urlPath] that ends its source:
    the path of the source URL, whenever the URL has no query or fragment
    and the parser keeps its path as it is written.  Suppose that [r]
    occurs in the source and that its first occurrence lies inside
    [urlPath]: [source = pre ++ r ++ rest] with no occurrence of [r]
    starting before the end of [pre], and [pre] at least as long as what
    comes before [urlPath].  Then the getter [root] returns [r]; when
    something follows that occurrence, [path] is what follows and the
    root followed by the path is a suffix of [urlPath]; when the source
    ends with it, [path] is [/], [dirname] is [/] and the root alone is
    a suffix of [urlPath]; and in both cases [dirname] is the directory
    of [path]. *)
Theorem root_and_path_rebuild_the_source
        (n : Node.t) (r0 origin urlPath pre rest : string) :
  NodeData.root (Node._data n) = Some r0 -> r0 <> "" ->
  let r := JsString.replaceRootSlash r0 in
  Node.source n = origin ++ urlPath ->
  Node.source n = pre ++ r ++ rest ->
  (forall j, OccursAt r (Node.source n) j -> (String.length pre <= j)%nat) ->
  (String.length origin <= String.length pre)%nat ->
  Node.root n = Some r
  /\ exists p,
       Node.path n = Returned p
       /\ Node.dirname n = Returned (path.dirname p)
       /\ ((rest <> "" /\ p = rest /\ JsString.isSuffixOf (r ++ p) urlPath)
           \/ (rest = "" /\ p = "/" /\ path.dirname p = "/"
               /\ JsString.isSuffixOf r urlPath)).
Proof.
  intros Hr Hne r Horigin Hsrc Hmin Hlen.
  destruct (root_of_supplied n r0 Hr Hne) as [Hroot _].
  destruct (getters_after_first_occurrence n r0 pre rest Hr Hne Hsrc Hmin) as [Hp Hdir].
  split; [exact Hroot|].
  exists (Node.orSlash rest). split; [exact Hp|]. split; [exact Hdir|].
  rewrite Horigin in Hsrc.
  destruct (app_cut origin urlPath pre (r ++ rest) Hsrc Hlen) as (x & _ & Hpath).
  unfold Node.orSlash. destruct (rest =? "") eqn:Hrest.
  - right. apply String.eqb_eq in Hrest. subst rest.
    split; [reflexivity|]. split; [reflexivity|]. split; [reflexivity|].
    exists x. now rewrite Hpath, app_nil_r_s.
  - left. apply String.eqb_neq in Hrest.
    split; [exact Hrest|]. split; [reflexivity|]. exists x. exact Hpath.
Qed.

Lemma root_and_path_rebuild_the_source_witness :
  let n := Samples.picture in
  let urlPath := "/remote.php/dav/files/emma/Photos/picture.jpg" in
  option_map URL.pathname (URL.parse (Node.source n)) = Some urlPath
  /\ Node.source n = "https://cloud.domain.com" ++ urlPath
  /\ Node.root n = Some "/files/emma"
  /\ exists p,
       Node.path n = Returned p
       /\ Node.dirname n = Returned (path.dirname p)
       /\ (("/Photos/picture.jpg" <> "" /\ p = "/Photos/picture.jpg"
            /\ JsString.isSuffixOf ("/files/emma" ++ p) urlPath)
           \/ ("/Photos/picture.jpg" = "" /\ p = "/" /\ path.dirname p = "/"
               /\ JsString.isSuffixOf "/files/emma" urlPath)).
Proof.
  intros n urlPath.
  split; [reflexivity|]. split; [reflexivity|].
  assert (Hocc : forall j,
             OccursAt "/files/emma" (Node.source Samples.picture) j ->
             (String.length "https://cloud.domain.com/remote.php/dav" <= j)%nat).
  { intros j Hj.
    assert (Hfirst : JsString.firstOccurrence (Node.source Samples.picture) "/files/emma"
                     = Some (String.length "https://cloud.domain.com/remote.php/dav"))
      by reflexivity.
    apply firstOccurrence_Some in Hfirst as [_ Hmin]. now apply Hmin. }
  refine (root_and_path_rebuild_the_source Samples.picture "/files/emma"
            "https://cloud.domain.com" "/remote.php/dav/files/emma/Photos/picture.jpg"
            "https://cloud.domain.com/remote.php/dav" "/Photos/picture.jpg"
            eq_refl _ eq_refl eq_refl Hocc _).
  - discriminate.
  - simpl. lia.
Defined.

(** ** C2: [root] *)

Section Split.
Variable re : RegExp.
Variable s : string.

Lemma split_loop_nonempty (fuel p q : nat) : JsRegExp.split_loop re s fuel p q <> [].
Proof.
  revert p q; induction fuel as [|fuel IH]; intros p q; simpl; [discriminate|].
  destruct (q <? String.length s)%nat; [|discriminate].
  destruct (exec_at re s q) as [[e0 caps]|]; [|apply IH].
  destruct (Nat.min e0 (String.length s) =? p)%nat; [apply IH | discriminate].
Qed.

Lemma last_app_nonempty {A} (l1 l2 : list A) (d : A) :
  l2 <> [] -> last (l1 ++ l2)%list d = last l2 d.
Proof.
  intros H. induction l1 as [|x l1 IH]; [reflexivity|].
  simpl. destruct (l1 ++ l2)%list eqn:Happ; [|exact IH].
  apply app_eq_nil in Happ as [_ ->]. contradiction.
Qed.

Lemma pop_piece (x : option string) (caps : list (option string)) (fuel p q : nat) :
  JsRegExp.pop (x :: caps ++ JsRegExp.split_loop re s fuel p q)%list
  = JsRegExp.pop (JsRegExp.split_loop re s fuel p q).
Proof.
  unfold JsRegExp.pop.
  change (x :: caps ++ JsRegExp.split_loop re s fuel p q)%list
    with ((x :: caps) ++ JsRegExp.split_loop re s fuel p q)%list.
  apply last_app_nonempty, split_loop_nonempty.
Qed.

(** Once no separator is left, the loop ends with the text after [p]. *)
Lemma split_loop_tail (fuel p q : nat) :
  (forall q', (q <= q')%nat -> exec_at re s q' = None) ->
  (String.length s - q + 1 <= fuel)%nat ->
  JsRegExp.split_loop re s fuel p q = [Some (JsString.drop p s)].
Proof.
  revert q; induction fuel as [|fuel IH]; intros q Hnone Hfuel; [lia|].
  simpl. destruct (q <? String.length s)%nat eqn:Hq; [|reflexivity].
  apply Nat.ltb_lt in Hq. rewrite (Hnone q) by lia.
  apply IH; [intros q' Hq'; apply Hnone; lia | lia].
Qed.

Variables a tok b : string.
Hypothesis Hwf : RegExp_wf re.
Hypothesis Hlast : LastToken re s a tok b.

Lemma split_loop_head (fuel p q : nat) :
  (p <= q <= String.length a)%nat ->
  (2 * (String.length s - q) + (if (p <? q)%nat then 1 else 0) + 1 <= fuel)%nat ->
  JsRegExp.pop (JsRegExp.split_loop re s fuel p q) = Some b.
Proof.
  destruct Hlast as (Hs & Htok & [caps0 Hmatch] & Hright & Hleft).
  assert (Hlen : String.length s
                 = (String.length a + (String.length tok + String.length b))%nat)
    by (rewrite Hs, !length_app_s; reflexivity).
  assert (Htoklen : (0 < String.length tok)%nat)
    by (destruct tok; [contradiction | simpl; lia]).
  revert p q; induction fuel as [|fuel IH]; intros p q Hpq Hfuel; [lia|].
  simpl. replace (q <? String.length s)%nat with true
    by (symmetry; apply Nat.ltb_lt; lia).
  destruct (Nat.eq_dec q (String.length a)) as [->|Hne].
  - rewrite Hmatch. rewrite Nat.min_l by lia.
    replace (String.length a + String.length tok =? p)%nat with false
      by (symmetry; apply Nat.eqb_neq; lia).
    rewrite pop_piece, split_loop_tail.
    + unfold JsRegExp.pop. simpl. f_equal.
      rewrite Hs, <- app_assoc_s, <- length_app_s. apply drop_app.
    + intros q' Hq'. apply Hright. lia.
    + destruct (p <? String.length a)%nat; lia.
  - destruct (exec_at re s q) as [[e0 caps]|] eqn:Hq.
    + pose proof (Hwf _ _ _ _ Hq) as [Hge Hle].
      assert (He0 : (e0 <= String.length a)%nat) by (apply (Hleft q e0 caps); [lia|exact Hq]).
      rewrite Nat.min_l by lia.
      destruct (e0 =? p)%nat eqn:Hep.
      * apply IH; [lia|]. destruct (p <? q)%nat, (p <? q + 1)%nat; lia.
      * rewrite pop_piece. apply Nat.eqb_neq in Hep. apply IH; [lia|].
        rewrite Nat.ltb_irrefl.
        destruct (p <? q)%nat eqn:Hlt; [lia|]. apply Nat.ltb_ge in Hlt. lia.
    + apply IH; [lia|]. destruct (p <? q)%nat, (p <? q + 1)%nat; lia.
Qed.

(** The last element of [s.split(re)] is the text after the last
    occurrence of the separator. *)
Lemma split_pop_last : JsRegExp.pop (JsRegExp.split re s) = Some b.
Proof.
  pose proof Hlast as (Hs & Htok & _).
  unfold JsRegExp.split.
  replace (String.length s =? 0)%nat with false.
  - apply split_loop_head; [lia|]. simpl. lia.
  - symmetry. apply Nat.eqb_neq. rewrite Hs, !length_app_s.
    destruct tok; [contradiction | simpl; lia].
Qed.

End Split.

Lemma length_drop (n : nat) (s : string) :
  String.length (JsString.drop n s) = (String.length s - n)%nat.
Proof.
  revert s; induction n as [|n IH]; intros [|c s]; simpl; try reflexivity.
  apply IH.
Qed.

Lemma startsWith_ci_length (s p : string) :
  JsRegExp.startsWith_ci s p = true -> (String.length p <= String.length s)%nat.
Proof.
  revert s; induction p as [|x p IH]; intros [|y s]; simpl; try lia; try discriminate.
  intros H. apply andb_true_iff in H as [_ H]. apply IH in H. lia.
Qed.

Lemma knownDavService_here_length (s : string) (len : nat) (caps : list (option string)) :
  JsRegExp.knownDavService_here s = Some (len, caps) -> (len <= String.length s)%nat.
Proof.
  unfold JsRegExp.knownDavService_here.
  destruct ((if JsRegExp.startsWith_ci s "remote" then true
             else JsRegExp.startsWith_ci s "public")
            && JsRegExp.startsWith_ci (JsString.drop 6 s) ".php/"); [|discriminate].
  destruct (JsRegExp.startsWith_ci (JsString.drop 11 s) "web"
            && JsRegExp.startsWith_ci (JsString.drop 3 (JsString.drop 11 s)) "dav") eqn:Hweb.
  - intros [= <- <-]. apply andb_true_iff in Hweb as [_ H].
    apply startsWith_ci_length in H. rewrite !length_drop in H. simpl in H. lia.
  - destruct (JsRegExp.startsWith_ci (JsString.drop 11 s) "dav") eqn:Hdav; [|discriminate].
    intros [= <- <-]. apply startsWith_ci_length in Hdav.
    rewrite length_drop in Hdav. simpl in Hdav. lia.
Qed.

Lemma knownDavService_wf : RegExp_wf knownDavService.
Proof.
  intros s q e caps. simpl.
  destruct (q <=? String.length s)%nat eqn:Hq; [|discriminate].
  apply Nat.leb_le in Hq.
  destruct (JsRegExp.knownDavService_here (JsString.drop q s)) as [[len c]|] eqn:Hm;
    [|discriminate].
  intros [= <- <-]. apply knownDavService_here_length in Hm.
  rewrite length_drop in Hm. lia.
Qed.

Lemma knownDavService_beyond (s : string) (q : nat) :
  (String.length s < q)%nat -> exec_at knownDavService s q = None.
Proof.
  intros H. simpl. replace (q <=? String.length s)%nat with false; [reflexivity|].
  symmetry. apply Nat.leb_gt. exact H.
Qed.


Lemma noMatchIn_correct (re : RegExp) (s : string) (lo count q : nat) :
  noMatchIn re s lo count = true -> (lo <= q < lo + count)%nat ->
  exec_at re s q = None.
Proof.
  unfold noMatchIn. rewrite forallb_forall. intros H Hq.
  specialize (H q (proj2 (in_seq count lo q) Hq)).
  now destruct (exec_at re s q).
Qed.

Lemma rootless_last_token :
  LastToken knownDavService (path.dirname (Node.source Samples.rootless))
    "https://cloud.domain.com/" "remote.php/dav" "".
Proof.
  split; [reflexivity|]. split; [discriminate|].
  split; [eexists; reflexivity|]. split.
  - intros q Hq.
    destruct (Nat.le_gt_cases q (String.length (path.dirname (Node.source Samples.rootless))))
      as [Hle|Hgt]; [|now apply knownDavService_beyond].
    apply (noMatchIn_correct _ _ 26 14); [reflexivity|].
    change (String.length "https://cloud.domain.com/") with 25%nat in Hq.
    change (String.length (path.dirname (Node.source Samples.rootless))) with 39%nat in Hle.
    lia.
  - intros q e caps Hq Hm.
    rewrite (noMatchIn_correct knownDavService _ 0 25 q) in Hm; [discriminate|reflexivity|].
    change (String.length "https://cloud.domain.com/") with 25%nat in Hq. lia.
Qed.

(** C2 as worded fails on the file of the test [Root null fallback],
    where nothing follows the service token in the directory of the
    source and the getter returns null, not the empty text; and on a file
    whose supplied root is [/], which the getter returns as it is. *)
Lemma root_claim_counterexample :
  (Node.new File
     (Samples.bag "https://cloud.domain.com/remote.php/dav/picture.jpg"
        (VString "image/jpeg") (VString "emma") VUndefined VUndefined VUndefined
        VUndefined) None = Returned Samples.rootless
   /\ Node.root Samples.rootless = None
   /\ ~ root_as_claimed Samples.rootless)
  /\ (Node.new File
        (Samples.bag Samples.picture_url (VString "image/jpeg") (VString "emma")
           (VString "/") VUndefined VUndefined VUndefined) None
      = Returned Samples.slash_root
      /\ Node.root Samples.slash_root = Some "/"
      /\ ~ root_as_claimed Samples.slash_root).
Proof.
  split; (split; [reflexivity|]); (split; [reflexivity|]).
  - intros (_ & Hdav & _).
    specialize (Hdav eq_refl eq_refl _ _ _ rootless_last_token). discriminate.
  - intros (Hsupplied & _).
    specialize (Hsupplied "/" eq_refl). discriminate Hsupplied. discriminate.
Qed.

Lemma replaceRootSlash_stem (stem : string) :
  stem <> "" -> JsString.noLineTerminator stem = true ->
  JsString.replaceRootSlash (stem ++ "/") = stem.
Proof.
  intros Hne Hlt. unfold JsString.replaceRootSlash.
  assert (Hinit : JsString.init (stem ++ "/") = stem).
  { clear. induction stem as [|c s IH]; [reflexivity|].
    simpl. destruct (s ++ "/") eqn:Hs; [destruct s; discriminate|]. now rewrite IH. }
  assert (Hend : JsString.endsWithSlash (stem ++ "/") = true).
  { clear. induction stem as [|c s IH]; [reflexivity|].
    simpl. destruct (s ++ "/") eqn:Hs; [destruct s; discriminate|]. exact IH. }
  rewrite Hend, Hinit, Hlt. apply String.eqb_neq in Hne. now rewrite Hne.
Qed.

Lemma replaceRootSlash_unchanged (r0 : string) :
  JsString.endsWithSlash r0 = false -> JsString.replaceRootSlash r0 = r0.
Proof. intros H. unfold JsString.replaceRootSlash. now rewrite H. Qed.

Lemma matchesEndBy_correct (re : RegExp) (s : string) (bound q e : nat)
      (caps : list (option string)) :
  matchesEndBy re s bound = true -> (q < bound)%nat ->
  exec_at re s q = Some (e, caps) -> (e <= bound)%nat.
Proof.
  unfold matchesEndBy. rewrite forallb_forall. intros H Hq Hm.
  assert (Hin : In q (seq 0 bound)) by (apply in_seq; lia).
  specialize (H q Hin).
  rewrite Hm in H. now apply Nat.leb_le.
Qed.

Lemma twice_last_token :
  LastToken knownDavService (path.dirname (Node.source Samples.twice))
    "https://cloud.domain.com/remote.php/dav/files/emma/" "public.php/webdav" "/x".
Proof.
  split; [reflexivity|]. split; [discriminate|].
  split; [eexists; reflexivity|]. split.
  - intros q Hq.
    destruct (Nat.le_gt_cases q (String.length (path.dirname (Node.source Samples.twice))))
      as [Hle|Hgt]; [|now apply knownDavService_beyond].
    apply (noMatchIn_correct _ _ 52 19); [reflexivity|].
    change (String.length "https://cloud.domain.com/remote.php/dav/files/emma/")
      with 51%nat in Hq.
    change (String.length (path.dirname (Node.source Samples.twice))) with 70%nat in Hle.
    lia.
  - intros q e caps Hq Hm.
    apply (matchesEndBy_correct knownDavService
             (path.dirname (Node.source Samples.twice)) 51 q e caps);
      [reflexivity | exact Hq | exact Hm].
Qed.

(** C2, amended.  For every Node whose service pattern matches where it
    starts and inside the input: when a root was supplied, the getter
    returns it without its final slash if that slash follows a stem that
    is not empty and holds no line break, and as it is otherwise (so [/]
    stays [/]); when no root was supplied, the source matches the pattern
    and the service token occurs in the directory of the source, it
    returns the text that follows the last occurrence of the token
    there, or null when that text is empty; when no root was supplied and
    the source does not match, it returns null.  The last occurrence is
    the one that [LastToken] describes: no match starts after it, and the
    matches that start before it end before it starts. *)
Theorem root_getter (n : Node.t) :
  RegExp_wf (Node._knownDavService n) -> root_as_amended n.
Proof.
  intros Hwf. unfold root_as_amended. split; [|split].
  - intros r0 Hr Hne. destruct (root_of_supplied n r0 Hr Hne) as [Hroot _].
    rewrite Hroot. split; [reflexivity|]. split; [|split].
    + intros stem -> Hstem Hlt. now rewrite replaceRootSlash_stem.
    + intros Hend. now rewrite replaceRootSlash_unchanged.
    + intros ->. reflexivity.
  - intros Hnone Hdav a tok b Hlast. unfold Node.root. rewrite Hnone, Hdav.
    rewrite (split_pop_last _ _ a tok b Hwf Hlast). reflexivity.
  - intros Hnone Hdav. unfold Node.root. now rewrite Hnone, Hdav.
Qed.

(** Outside the amended claim: a source that ends with the service token
    matches the pattern, but its directory does not hold the token, and
    [split] then leaves the directory whole: the getter returns the
    source up to its last segment, which is no root. *)
Example root_of_a_source_ending_with_the_token :
  Node.newFolder (Samples.folder_bag "https://cloud.domain.com/remote.php/dav" VUndefined)
    None = Returned Samples.service_folder
  /\ Node.isDavRessource Samples.service_folder = true
  /\ Node.root Samples.service_folder = Some "https://cloud.domain.com/remote.php".
Proof. repeat split; reflexivity. Qed.

Lemma root_getter_witness :
  RegExp_wf knownDavService
  /\ Node.root Samples.rootless = None
  /\ Node.root Samples.twice = Some "/x"
  /\ Node.root Samples.remote = None
  /\ Node.root Samples.slashed_root = Some "/files/emma".
Proof.
  split; [exact knownDavService_wf|].
  split; [|split; [|split]].
  - exact (proj1 (proj2 (root_getter Samples.rootless knownDavService_wf))
             eq_refl eq_refl _ _ _ rootless_last_token).
  - exact (proj1 (proj2 (root_getter Samples.twice knownDavService_wf))
             eq_refl eq_refl _ _ _ twice_last_token).
  - exact (proj2 (proj2 (root_getter Samples.remote knownDavService_wf))
             eq_refl eq_refl).
  - refine (proj1 (proj2 (proj1 (root_getter Samples.slashed_root knownDavService_wf)
                            "/files/emma/" eq_refl _))
                  "/files/emma" eq_refl _ eq_refl); discriminate.
Defined.

(** * Further properties of the code *)

(** ** Writes and deletes on the attributes *)

Lemma setAttribute_run now prop value n :
  Node.setAttribute now prop value n =
  (Returned tt,
   Node.with_attributes
     (Node.with_data n (NodeData.with_mtime (Node._data n)
                          (option_map (fun _ => now) (NodeData.mtime (Node._data n)))))
     (Node.setProperty (Node._attributes n) prop value)).
Proof.
  unfold Node.setAttribute.
  rewrite (bind_returned _ _ _ _ _ (updateMtime_run now n)). reflexivity.
Qed.

Lemma deleteAttribute_run now prop n :
  Node.deleteAttribute now prop n =
  (Returned tt,
   Node.with_attributes
     (Node.with_data n (NodeData.with_mtime (Node._data n)
                          (option_map (fun _ => now) (NodeData.mtime (Node._data n)))))
     (Node.removeProperty (Node._attributes n) prop)).
Proof.
  unfold Node.deleteAttribute.
  rewrite (bind_returned _ _ _ _ _ (updateMtime_run now n)). reflexivity.
Qed.

(** X1.  A write and a delete through the proxy of the attributes reach
    the data of the Node through [updateMtime] only: afterwards the
    modification time is the time of the call when the Node had one and
    is absent when it had none, and the source and every other field of
    the data are as before.  Nothing is stated on what the attributes
    hold afterwards. *)
Theorem attribute_changes_refresh_mtime
        (now : Date) (prop : string) (value : JsValue) (n : Node.t) :
  let refreshed :=
    NodeData.with_mtime (Node._data n) (option_map (fun _ => now) (Node.mtime n)) in
  let written := snd (Node.setAttribute now prop value n) in
  let deleted := snd (Node.deleteAttribute now prop n) in
  Node._data written = refreshed
  /\ Node._data deleted = refreshed
  /\ Node.mtime written = option_map (fun _ => now) (Node.mtime n)
  /\ Node.mtime deleted = option_map (fun _ => now) (Node.mtime n)
  /\ Node.source written = Node.source n
  /\ Node.source deleted = Node.source n.
Proof.
  rewrite setAttribute_run, deleteAttribute_run. simpl.
  destruct n as [d a0 re ty]; destruct d; repeat split; reflexivity.
Qed.

(** ** What no mutation changes *)

Lemma perform_keeps (now : Date) (op : Operation) (n : Node.t) :
  let n' := snd (perform now op n) in
  (Node.mtime n' = None <-> Node.mtime n = None)
  /\ NodeData.root (Node._data n') = NodeData.root (Node._data n)
  /\ NodeData.id (Node._data n') = NodeData.id (Node._data n)
  /\ Node.crtime n' = Node.crtime n
  /\ Node.mime n' = Node.mime n
  /\ Node.size n' = Node.size n
  /\ NodeData.permissions (Node._data n') = NodeData.permissions (Node._data n)
  /\ NodeData.owner (Node._data n') = NodeData.owner (Node._data n)
  /\ Node._knownDavService n' = Node._knownDavService n
  /\ Node.type n' = Node.type n.
Proof.
  assert (Hmove : forall destination,
    let n' := snd (Node.move now destination n) in
    (Node.mtime n' = None <-> Node.mtime n = None)
    /\ NodeData.root (Node._data n') = NodeData.root (Node._data n)
    /\ NodeData.id (Node._data n') = NodeData.id (Node._data n)
    /\ Node.crtime n' = Node.crtime n
    /\ Node.mime n' = Node.mime n
    /\ Node.size n' = Node.size n
    /\ NodeData.permissions (Node._data n') = NodeData.permissions (Node._data n)
    /\ NodeData.owner (Node._data n') = NodeData.owner (Node._data n)
    /\ Node._knownDavService n' = Node._knownDavService n
    /\ Node.type n' = Node.type n).
  { intros destination. rewrite move_run.
    destruct (validateData _ _ _) as [[]|e].
    - rewrite updateMtime_run. destruct n as [d a re ty]; destruct d; simpl.
      unfold Node.mtime; simpl. destruct mtime; simpl; repeat split; congruence.
    - simpl. repeat split; auto. }
  destruct op as [destination|basename|prop value|prop|st]; simpl.
  - apply Hmove.
  - unfold Node.rename, MethodM.bind, MethodM.this, MethodM.throw.
    destruct (JsString.includes basename "/").
    + simpl. repeat split; auto.
    + apply Hmove.
  - rewrite setAttribute_run. destruct n as [d a re ty]; destruct d; simpl.
    unfold Node.mtime; simpl. destruct mtime; simpl; repeat split; congruence.
  - rewrite deleteAttribute_run. destruct n as [d a re ty]; destruct d; simpl.
    unfold Node.mtime; simpl. destruct mtime; simpl; repeat split; congruence.
  - destruct n as [d a re ty]; destruct d; simpl. repeat split; auto.
Qed.

(** X3.  Whatever is done to a Node after its construction (moves,
    renames, writes and deletes of attributes, changes of status, failed
    or not), a Node without a modification time never gets one and a Node
    with one never loses it; and the root, the id, the creation time, the
    mime type, the size, the permissions, the owner, the service pattern
    and the variant stay what the constructor stored. *)
Theorem mutations_keep_what_the_constructor_stored
        (ops : list (Date * Operation)) (n : Node.t) :
  let n' := performAll ops n in
  (Node.mtime n' = None <-> Node.mtime n = None)
  /\ NodeData.root (Node._data n') = NodeData.root (Node._data n)
  /\ NodeData.id (Node._data n') = NodeData.id (Node._data n)
  /\ Node.crtime n' = Node.crtime n
  /\ Node.mime n' = Node.mime n
  /\ Node.size n' = Node.size n
  /\ NodeData.permissions (Node._data n') = NodeData.permissions (Node._data n)
  /\ NodeData.owner (Node._data n') = NodeData.owner (Node._data n)
  /\ Node._knownDavService n' = Node._knownDavService n
  /\ Node.type n' = Node.type n.
Proof.
  revert n; induction ops as [|[now op] ops IH]; intros n; simpl.
  - repeat split; auto.
  - specialize (IH (snd (perform now op n))). simpl in IH.
    pose proof (perform_keeps now op n) as Hstep. simpl in Hstep.
    destruct IH as (I1 & I2 & I3 & I4 & I5 & I6 & I7 & I8 & I9 & I10).
    destruct Hstep as (S1 & S2 & S3 & S4 & S5 & S6 & S7 & S8 & S9 & S10).
    repeat split; try congruence.
    + intros H. apply S1, I1, H.
    + intros H. apply I1, S1, H.
Qed.

(** ** Getters that are never empty *)

Lemma orNull_not_empty (x : option string) : Node.orNull x <> Some "".
Proof.
  destruct x as [s|]; simpl; [|discriminate].
  destruct (s =? "") eqn:Hs; [discriminate|].
  intros [= ->]. discriminate.
Qed.

(** X4.  The root of a Node is null or a text that is not empty, whatever
    the Node: the test [if (this.root)] of [dirname] and [path] fails on
    null only. *)
Theorem root_is_null_or_not_empty (n : Node.t) :
  Node.root n <> Some "" /\ Node.orNull (Node.root n) = Node.root n.
Proof.
  assert (H : Node.root n <> Some "").
  { unfold Node.root.
    destruct (NodeData.root (Node._data n)) as [r0|] eqn:Hr; simpl.
    - destruct (r0 =? "") eqn:He; simpl.
      + destruct (Node.isDavRessource n); [apply orNull_not_empty | discriminate].
      + apply String.eqb_neq in He. intros [= Hs].
        now apply (replaceRootSlash_nonempty r0 He).
    - destruct (Node.isDavRessource n); [apply orNull_not_empty | discriminate]. }
  split; [exact H|].
  destruct (Node.root n) as [r|]; [|reflexivity]. simpl.
  destruct (r =? "") eqn:He; [|reflexivity].
  apply String.eqb_eq in He. subst. now destruct H.
Qed.

Lemma take_nonempty (e : nat) (p : string) :
  (0 < e)%nat -> p <> "" -> JsString.take e p <> "".
Proof.
  intros He Hp. destruct e; [lia|]. destruct p; [congruence|]. simpl. discriminate.
Qed.

Lemma dirname_loop_positive (p : string) (i : nat) (m : bool) (e : nat) :
  path.dirname_loop p i m = Some e -> (0 < e)%nat.
Proof.
  revert m; induction i as [|i IH]; intros m; simpl; [discriminate|].
  destruct (JsString.slashAt p (S i)).
  - destruct m; simpl; [apply IH | intros [= <-]; lia].
  - apply IH.
Qed.

(** The directory of a path is never the empty text. *)
Lemma path_dirname_not_empty (p : string) : path.dirname p <> "".
Proof.
  unfold path.dirname. destruct p as [|c p]; [discriminate|].
  change (String.length (String c p) =? 0)%nat with false. cbv iota.
  destruct (path.dirname_loop _ _ true) as [e|] eqn:He.
  - destruct (JsString.slashAt (String c p) 0 && (e =? 1)%nat); [discriminate|].
    apply take_nonempty; [|discriminate]. now apply dirname_loop_positive in He.
  - destruct (JsString.slashAt (String c p) 0); discriminate.
Qed.

Lemma replaceDoubleSlashes_not_empty (s : string) :
  s <> "" -> JsString.replaceDoubleSlashes s <> "".
Proof.
  destruct s as [|c [|c' s]]; simpl; try congruence; try discriminate.
  destruct (JsString.isSlash c && JsString.isSlash c'); discriminate.
Qed.

(** X5.  When [dirname] or [path] returns, what it returns is not the
    empty text. *)
Theorem dirname_and_path_are_not_empty (n : Node.t) (d p : string) :
  (Node.dirname n = Returned d -> d <> "")
  /\ (Node.path n = Returned p -> p <> "").
Proof.
  split.
  - unfold Node.dirname. destruct (Node.orNull (Node.root n)).
    + intros [= <-]. apply path_dirname_not_empty.
    + destruct (URL.parse (Node.source n)); [|discriminate].
      intros [= <-]. apply path_dirname_not_empty.
  - unfold Node.path. destruct (Node.orNull (Node.root n)).
    + intros [= <-]. unfold Node.orSlash.
      destruct (_ =? "") eqn:He; [discriminate | now apply String.eqb_neq].
    + destruct (Node.dirname n) as [d'|]; [|discriminate].
      intros [= <-]. apply replaceDoubleSlashes_not_empty.
      destruct d'; discriminate.
Qed.

Lemma dirname_and_path_are_not_empty_witness :
  (Node.dirname Samples.home = Returned "/" /\ "/" <> "")
  /\ (Node.path Samples.remote = Returned "/files/images/emma.jpeg"
      /\ "/files/images/emma.jpeg" <> "").
Proof.
  split; (split; [reflexivity|]).
  - exact (proj1 (dirname_and_path_are_not_empty Samples.home "/" "") eq_refl).
  - exact (proj2 (dirname_and_path_are_not_empty Samples.remote "" "/files/images/emma.jpeg")
             eq_refl).
Defined.

(** ** [fileid] of a constructed Node *)

(** X6.  A Node made from a bag without an id reads its [fileid] from the
    attributes of the bag: it is their property [fileid], and [undefined]
    when the bag has no attributes. *)
Theorem fileid_falls_back_to_the_attributes
        (variant : FileType) (raw : RawData.t) (davService : option RegExp) (n : Node.t) :
  Node.new variant raw davService = Returned n ->
  RawData.id raw = VUndefined ->
  (forall o, RawData.attributes raw = VObject o ->
     Node.attributes n = o /\ Node.fileid n = getProperty o "fileid")
  /\ (RawData.attributes raw = VUndefined ->
     Node.attributes n = [] /\ Node.fileid n = VUndefined).
Proof.
  intros Hnew Hid.
  apply new_Returned in Hnew as (d & _ & Hraw & Hdata & Hattrs & _).
  apply ofRaw_source_root in Hraw as (_ & Hid' & _ & Hat).
  rewrite Hid in Hid'. simpl in Hid'. injection Hid' as Hid'.
  assert (Hnone : NodeData.id (Node._data n) = None)
    by (rewrite Hdata; simpl; congruence).
  split.
  - intros o Ho. rewrite Ho in Hat. simpl in Hat. injection Hat as Hat.
    assert (Ha : Node.attributes n = o)
      by (unfold Node.attributes; rewrite Hattrs, <- Hat; reflexivity).
    split; [exact Ha|]. rewrite (fileid_of_attributes n Hnone). now rewrite Ha.
  - intros Ho. rewrite Ho in Hat. simpl in Hat. injection Hat as Hat.
    assert (Ha : Node.attributes n = [])
      by (unfold Node.attributes; rewrite Hattrs, <- Hat; reflexivity).
    split; [exact Ha|]. rewrite (fileid_of_attributes n Hnone). now rewrite Ha.
Qed.

Lemma fileid_falls_back_to_the_attributes_witness :
  let bag := Samples.bag "https://cloud.domain.com/remote.php/dav/picture.jpg"
               (VString "image/jpeg") (VString "emma") VUndefined VUndefined
               (VObject [("fileid", VNumber (Int 1234))]) VUndefined in
  let made := Samples.node File
                (Samples.data "https://cloud.domain.com/remote.php/dav/picture.jpg"
                   (Some "image/jpeg") None None None)
                [("fileid", VNumber (Int 1234))] in
  Node.new File bag None = Returned made
  /\ RawData.id bag = VUndefined
  /\ Node.fileid made = VNumber (Int 1234).
Proof.
  intros bag made.
  assert (Hnew : Node.new File bag None = Returned made) by reflexivity.
  split; [exact Hnew|]. split; [reflexivity|].
  exact (proj2 (proj1 (fileid_falls_back_to_the_attributes File bag None made
                         Hnew eq_refl) _ eq_refl)).
Defined.

(** ** The registry of file actions over time *)

Lemma registerFileAction_registry (a : FileActions.FileAction) (w : FileActions.Window) :
  fst (FileActions.registerFileAction a w) = Returned tt
  /\ registry (snd (FileActions.registerFileAction a w))
     = if existsb (fun id => id =? FileActions.action_id a) (registeredIds w)
       then registry w
       else (registry w ++ [a])%list.
Proof.
  destruct (existsb _ (registeredIds w)) eqn:Hex.
  - apply registerFileAction_duplicate.
    apply existsb_exists in Hex as (id & Hin & Hid). apply String.eqb_eq in Hid.
    unfold registeredIds in Hin. apply in_map_iff in Hin as (a0 & Ha0 & Hin).
    exists a0. split; [exact Hin | congruence].
  - apply registerFileAction_fresh. intros a0 Hin Hid.
    assert (Hex' : existsb (fun id => id =? FileActions.action_id a) (registeredIds w) = true).
    { apply existsb_exists. exists (FileActions.action_id a0).
      split; [unfold registeredIds; now apply in_map | now apply String.eqb_eq]. }
    congruence.
Qed.

Lemma registerFileAction_defines (a : FileActions.FileAction) (w : FileActions.Window) :
  FileActions._nc_fileactions (snd (FileActions.registerFileAction a w)) <> None.
Proof.
  destruct (initialize_run w) as (w' & Hinit & Hw').
  unfold FileActions.registerFileAction. rewrite (bind_returned _ _ _ _ _ Hinit).
  destruct (List.find _ (registry w)); simpl; [|discriminate].
  unfold FileActions.logged, MethodM.assign. simpl. rewrite Hw'. discriminate.
Qed.

Lemma NoDup_app_one (l : list string) (x : string) :
  NoDup l -> ~ In x l -> NoDup (l ++ [x]).
Proof.
  intros Hl Hx. induction Hl as [|y l Hy Hl IH]; simpl.
  - constructor; [intros [] | constructor].
  - constructor.
    + intros Hin. apply in_app_or in Hin as [Hin|[<-|[]]]; [contradiction|].
      apply Hx. now left.
    + apply IH. intros Hin. apply Hx. now right.
Qed.

Lemma registerFileAction_step (a : FileActions.FileAction) (w : FileActions.Window) :
  let w' := snd (FileActions.registerFileAction a w) in
  (NoDup (registeredIds w) -> NoDup (registeredIds w'))
  /\ (exists added, registry w' = (registry w ++ added)%list)
  /\ In (FileActions.action_id a) (registeredIds w').
Proof.
  destruct (registerFileAction_registry a w) as [_ Hreg]. simpl.
  unfold registeredIds in *. rewrite Hreg.
  destruct (existsb _ _) eqn:Hex.
  - split; [auto|]. split; [exists []; now rewrite app_nil_r|].
    apply existsb_exists in Hex as (id & Hin & Hid). apply String.eqb_eq in Hid.
    now subst.
  - split; [|split; [now exists [a]|]].
    + intros Hnd. rewrite map_app. simpl. apply NoDup_app_one; [exact Hnd|].
      intros Hin.
      assert (existsb (fun id => id =? FileActions.action_id a)
                (map FileActions.action_id (registry w)) = true)
        by (apply existsb_exists; eexists; split; [exact Hin | apply String.eqb_refl]).
      congruence.
    + rewrite map_app. apply in_or_app. right. now left.
Qed.

(** X7.  However many actions are registered, in whatever order and with
    whatever repetitions, no two actions of the registry share an id,
    provided none did before; in particular from a window where the
    registry was never used. *)
Theorem registry_ids_stay_distinct
        (actions : list FileActions.FileAction) (w : FileActions.Window) :
  NoDup (registeredIds w) -> NoDup (registeredIds (registerAll actions w)).
Proof.
  revert w; induction actions as [|a actions IH]; intros w Hnd; simpl; [exact Hnd|].
  apply IH. now apply (proj1 (registerFileAction_step a w)).
Qed.

Lemma registry_ids_stay_distinct_witness :
  NoDup (registeredIds Samples.window)
  /\ NoDup (registeredIds
              (registerAll [Samples.action "delete" VUndefined;
                            Samples.action "rename" VUndefined;
                            Samples.action "delete" (VNumber (Int 5))] Samples.window)).
Proof.
  assert (H : NoDup (registeredIds Samples.window)) by constructor.
  split; [exact H | exact (registry_ids_stay_distinct _ Samples.window H)].
Defined.

(** X8.  Registrations only add at the end of the registry: what was
    registered stays, in its place, and every action submitted is
    afterwards represented by an action with its id. *)
Theorem registry_only_grows
        (actions : list FileActions.FileAction) (w : FileActions.Window) :
  (exists added, registry (registerAll actions w) = (registry w ++ added)%list)
  /\ (forall a, In a actions ->
        In (FileActions.action_id a) (registeredIds (registerAll actions w))).
Proof.
  revert w; induction actions as [|a actions IH]; intros w; simpl.
  - split; [exists []; now rewrite app_nil_r | intros a []].
  - destruct (IH (snd (FileActions.registerFileAction a w))) as [[added Hadd] Hin].
    destruct (registerFileAction_step a w) as (_ & [added0 Hadd0] & Hid).
    split.
    + exists (added0 ++ added)%list. now rewrite Hadd, Hadd0, app_assoc.
    + intros a' [<-|Ha']; [|now apply Hin].
      unfold registeredIds in *. rewrite Hadd, map_app. apply in_or_app. left.
      exact Hid.
Qed.

Lemma registry_only_grows_witness :
  In "rename"
     (registeredIds
        (registerAll [Samples.action "delete" VUndefined;
                      Samples.action "rename" VUndefined] Samples.window)).
Proof.
  apply (proj2 (registry_only_grows
                  [Samples.action "delete" VUndefined; Samples.action "rename" VUndefined]
                  Samples.window) (Samples.action "rename" VUndefined)).
  right. now left.
Defined.

(** X9.  [getFileActions] sets the registry up once: the first call on a
    window without a registry leaves an empty registry and logs its
    creation; a call on a window with a registry returns that registry and
    changes nothing, so a second call returns what the first returned and
    logs nothing more.  After a registration the call returns the
    registry with the action's id in it. *)
Theorem getFileActions_initializes_once (w : FileActions.Window) :
  let first := FileActions.getFileActions w in
  fst first = Returned (registry w)
  /\ FileActions._nc_fileactions (snd first) = Some (registry w)
  /\ (FileActions._nc_fileactions w = None ->
      FileActions.log (snd first)
      = (FileActions.log w ++ [FileActions.debug "FileActions initialized"])%list)
  /\ (FileActions._nc_fileactions w <> None -> snd first = w)
  /\ FileActions.getFileActions (snd first) = (fst first, snd first)
  /\ (forall a,
        exists l, fst (FileActions.getFileActions
                         (snd (FileActions.registerFileAction a w))) = Returned l
                  /\ In (FileActions.action_id a) (map FileActions.action_id l)).
Proof.
  assert (Hlast : forall a,
        exists l, fst (FileActions.getFileActions
                         (snd (FileActions.registerFileAction a w))) = Returned l
                  /\ In (FileActions.action_id a) (map FileActions.action_id l)).
  { intros a.
    pose proof (registerFileAction_step a w) as (_ & _ & Hin).
    pose proof (registerFileAction_defines a w) as Hdef.
    unfold registeredIds, registry in Hin.
    destruct (snd (FileActions.registerFileAction a w)) as [[l'|] lg'];
      simpl in Hin, Hdef; [|congruence].
    exists l'. split; [reflexivity | exact Hin]. }
  destruct w as [[l|] lg]; simpl.
  - repeat split; try reflexivity; try discriminate. exact Hlast.
  - repeat split; try reflexivity; try (intros H; now destruct H). exact Hlast.
Qed.

Lemma getFileActions_initializes_once_witness :
  FileActions._nc_fileactions Samples.window = None
  /\ FileActions.log (snd (FileActions.getFileActions Samples.window))
     = [FileActions.debug "FileActions initialized"].
Proof.
  split; [reflexivity|].
  exact (proj1 (proj2 (proj2 (getFileActions_initializes_once Samples.window))) eq_refl).
Defined.

(** ** Directory and base name of a path put together from the two *)

Lemma slashAt_app_right (a b : string) (i : nat) :
  JsString.slashAt (a ++ b) (String.length a + i) = JsString.slashAt b i.
Proof.
  unfold JsString.slashAt.
  now rewrite (append_correct2 a b i), (Nat.add_comm i).
Qed.

Lemma slashAt_joint (d b : string) :
  JsString.slashAt (d ++ "/" ++ b) (String.length d) = true.
Proof.
  pose proof (slashAt_app_right d ("/" ++ b) 0) as H.
  now rewrite Nat.add_0_r in H.
Qed.

Lemma slashAt_after_joint (d b : string) (j : nat) :
  JsString.slashAt (d ++ "/" ++ b) (String.length d + S j) = JsString.slashAt b j.
Proof. now rewrite slashAt_app_right. Qed.

Lemma noSlash_of_includes (s : string) :
  JsString.includes s "/" = false -> noSlash s.
Proof.
  unfold JsString.includes, noSlash, JsString.slashAt.
  induction s as [|c s IH]; intros H i; [now destruct i|].
  cbn [JsString.firstOccurrence JsString.startsWith] in H.
  unfold JsString.isSlash.
  rewrite Ascii.eqb_sym in H.
  assert (Hs : JsString.startsWith s "" = true) by now destruct s.
  rewrite Hs, andb_true_r in H.
  destruct (Ascii.eqb c "/") eqn:Hc; [discriminate|].
  destruct i as [|i]; simpl; [exact Hc|].
  apply IH. now destruct (JsString.firstOccurrence s "/").
Qed.

Lemma dirname_loop_joint (d b : string) (j : nat) :
  noSlash b -> (0 < String.length d)%nat ->
  path.dirname_loop (d ++ "/" ++ b) (String.length d + j) false
  = Some (String.length d).
Proof.
  intros Hb Hd. induction j as [|j IH].
  - rewrite Nat.add_0_r. destruct (String.length d) as [|l] eqn:Hl; [lia|].
    cbn [path.dirname_loop]. rewrite <- Hl, slashAt_joint. reflexivity.
  - rewrite Nat.add_succ_r. cbn [path.dirname_loop].
    rewrite <- Nat.add_succ_r, slashAt_after_joint, Hb. exact IH.
Qed.

Lemma basename_loop_joint (d b : string) (j : nat) (e : nat) :
  noSlash b ->
  path.basename_loop (d ++ "/" ++ b) (S (String.length d) + j) false (Some e)
  = (S (String.length d), Some e).
Proof.
  intros Hb. induction j as [|j IH].
  - rewrite Nat.add_0_r. cbn [path.basename_loop]. now rewrite slashAt_joint.
  - rewrite Nat.add_succ_r. cbn [path.basename_loop].
    replace (S (String.length d) + j)%nat with (String.length d + S j)%nat at 1 by lia.
    rewrite slashAt_after_joint, Hb. exact IH.
Qed.

Lemma take_all (s : string) : JsString.take (String.length s) s = s.
Proof. induction s as [|c s IH]; simpl; [reflexivity | now rewrite IH]. Qed.

(** The base name of [d/b] is [b] when [b] is a name: not empty and
    without a slash. *)
Lemma basename_joint (d b : string) :
  b <> "" -> noSlash b -> path.basename (d ++ "/" ++ b) = b.
Proof.
  intros Hne Hb. unfold path.basename.
  assert (Hm : String.length b = S (pred (String.length b)))
    by (destruct b; [congruence | reflexivity]).
  set (m := pred (String.length b)) in *.
  assert (Hlen : String.length (d ++ "/" ++ b) = S (S (String.length d) + m)).
  { rewrite !length_app_s, Hm. simpl. lia. }
  rewrite Hlen. cbn [path.basename_loop].
  replace (S (String.length d) + m)%nat with (String.length d + S m)%nat at 1 by lia.
  rewrite slashAt_after_joint, Hb.
  rewrite basename_loop_joint by exact Hb.
  replace (S (S (String.length d) + m) - S (String.length d))%nat
    with (String.length b) by lia.
  replace (d ++ "/" ++ b) with ((d ++ "/") ++ b) by apply app_assoc_s.
  replace (S (String.length d)) with (String.length (d ++ "/"))
    by (rewrite length_app_s; simpl; lia).
  rewrite drop_app. apply take_all.
Qed.

(** The directory of [d/b] is [d], for a name [b] and a directory [d]
    other than the root: the directory of [//b] is [//]. *)
Lemma dirname_joint (d b : string) :
  d <> "" -> d <> "/" -> b <> "" -> noSlash b ->
  path.dirname (d ++ "/" ++ b) = d.
Proof.
  intros Hd Hroot Hne Hb. unfold path.dirname.
  assert (Hm : String.length b = S (pred (String.length b)))
    by (destruct b; [congruence | reflexivity]).
  set (m := pred (String.length b)) in *.
  assert (Hlen : String.length (d ++ "/" ++ b) = S (String.length d + S m)).
  { rewrite !length_app_s, Hm. simpl. lia. }
  rewrite Hlen. cbn [Nat.eqb]. cbv iota.
  replace (S (String.length d + S m) - 1)%nat with (S (String.length d + m)) by lia.
  cbn [path.dirname_loop].
  replace (S (String.length d + m)) with (String.length d + S m)%nat at 1 by lia.
  rewrite slashAt_after_joint, Hb.
  rewrite dirname_loop_joint; [|exact Hb|destruct d; [congruence | simpl; lia]].
  assert (Hcase : JsString.slashAt (d ++ "/" ++ b) 0 && (String.length d =? 1)%nat = false).
  { destruct d as [|c [|c' d']]; [congruence| |apply andb_false_r].
    unfold JsString.slashAt, JsString.isSlash. simpl.
    destruct (Ascii.eqb c "/") eqn:Hc; [|reflexivity].
    apply Ascii.eqb_eq in Hc. subst c. congruence. }
  rewrite Hcase. apply take_app.
Qed.

Lemma endsWithSlash_name (b : string) :
  b <> "" -> noSlash b -> JsString.endsWithSlash b = false.
Proof.
  intros Hne Hb. induction b as [|c b IH]; [congruence|].
  destruct b as [|c' b'].
  - simpl. exact (Hb 0%nat).
  - change (JsString.endsWithSlash (String c (String c' b')))
      with (JsString.endsWithSlash (String c' b')).
    apply IH; [discriminate|]. intros i. exact (Hb (S i)).
Qed.

(** X10.  After a successful [rename] to a name that is not empty, the
    Node's source is the former directory, a slash and the name; its
    basename reads back the name; and it is still in the same directory,
    unless that directory is [/].  The modification time, when there is
    one, is the time of the call. *)
Theorem rename_is_read_back (now : Date) (name : string) (n n' : Node.t) :
  Node.rename now name n = (Returned tt, n') ->
  name <> "" ->
  Node.source n' = path.dirname (Node.source n) ++ "/" ++ name
  /\ Node.basename n' = name
  /\ (path.dirname (Node.source n) <> "/" ->
      path.dirname (Node.source n') = path.dirname (Node.source n))
  /\ Node.mtime n' = option_map (fun _ => now) (Node.mtime n).
Proof.
  intros Hrun Hne.
  unfold Node.rename, MethodM.bind, MethodM.this in Hrun. cbn beta iota in Hrun.
  destruct (JsString.includes name "/") eqn:Hinc; [discriminate|].
  apply noSlash_of_includes in Hinc.
  rewrite move_run in Hrun.
  destruct (validateData _ _ _); [|discriminate].
  rewrite updateMtime_run in Hrun. injection Hrun as Hn'.
  assert (Hsrc : Node.source n' = path.dirname (Node.source n) ++ "/" ++ name).
  { rewrite <- Hn'. unfold Node.source at 1. simpl. unfold JsString.replaceEndingSlash.
    replace (path.dirname (Node.source n) ++ String "/" name)
      with ((path.dirname (Node.source n) ++ "/") ++ name) by apply app_assoc_s.
    rewrite endsWithSlash_app by exact Hne.
    now rewrite endsWithSlash_name. }
  split; [exact Hsrc|]. split; [|split].
  - unfold Node.basename. rewrite Hsrc. now apply basename_joint.
  - intros Hroot. rewrite Hsrc.
    apply dirname_joint; auto using path_dirname_not_empty.
  - rewrite <- Hn'. destruct n as [d0 a0 re ty]; destruct d0; reflexivity.
Qed.

Lemma rename_is_read_back_witness :
  Node.rename 2000%Z "image.jpg" Samples.picture
  = (Returned tt, snd (Node.rename 2000%Z "image.jpg" Samples.picture))
  /\ Node.basename (snd (Node.rename 2000%Z "image.jpg" Samples.picture)) = "image.jpg".
Proof.
  assert (H : Node.rename 2000%Z "image.jpg" Samples.picture
              = (Returned tt, snd (Node.rename 2000%Z "image.jpg" Samples.picture)))
    by (vm_compute; reflexivity).
  split; [exact H|].
  apply (rename_is_read_back 2000%Z "image.jpg" Samples.picture _ H). discriminate.
Defined.

Lemma init_app_slash (d : string) : JsString.init (d ++ "/") = d.
Proof.
  induction d as [|c d IH]; [reflexivity|].
  simpl. destruct (d ++ "/") eqn:Hd.
  - destruct d; discriminate.
  - now rewrite IH.
Qed.

(** X11.  [rename] does not refuse an empty name: when the call succeeds
    the Node has taken the place of its parent directory, its source being
    the former directory. *)
Theorem rename_to_the_empty_name (now : Date) (n n' : Node.t) :
  Node.rename now "" n = (Returned tt, n') ->
  Node.source n' = path.dirname (Node.source n).
Proof.
  intros Hrun.
  unfold Node.rename, MethodM.bind, MethodM.this in Hrun. cbn beta iota in Hrun.
  change (JsString.includes "" "/") with false in Hrun. cbv iota in Hrun.
  rewrite move_run in Hrun.
  destruct (validateData _ _ _); [|discriminate].
  rewrite updateMtime_run in Hrun. injection Hrun as Hn'.
  rewrite <- Hn'. unfold Node.source at 1. simpl. unfold JsString.replaceEndingSlash.
  change (path.dirname (Node.source n) ++ String "/" "")
    with (path.dirname (Node.source n) ++ "/").
  rewrite endsWithSlash_app by discriminate. simpl.
  apply init_app_slash.
Qed.

Lemma rename_to_the_empty_name_witness :
  Node.rename 2000%Z "" Samples.picture
  = (Returned tt, snd (Node.rename 2000%Z "" Samples.picture))
  /\ Node.source (snd (Node.rename 2000%Z "" Samples.picture))
     = "https://cloud.domain.com/remote.php/dav/files/emma/Photos".
Proof.
  assert (H : Node.rename 2000%Z "" Samples.picture
              = (Returned tt, snd (Node.rename 2000%Z "" Samples.picture)))
    by (vm_compute; reflexivity).
  split; [exact H|].
  exact (rename_to_the_empty_name 2000%Z Samples.picture _ H).
Defined.

(** ** The base name of a path has no slash *)

Lemma get_drop (k : nat) (s : string) (j : nat) :
  String.get j (JsString.drop k s) = String.get (k + j) s.
Proof.
  revert s; induction k as [|k IH]; intros s; [reflexivity|].
  destruct s as [|c s]; simpl; [now destruct j | apply IH].
Qed.

Lemma get_take (k : nat) (s : string) (j : nat) :
  String.get j (JsString.take k s)
  = if (j <? k)%nat then String.get j s else None.
Proof.
  revert s j; induction k as [|k IH]; intros s j; simpl.
  - now destruct j.
  - destruct s as [|c s]; simpl; [destruct j; [reflexivity | now destruct (S j <? S k)%nat]|].
    destruct j as [|j]; [reflexivity|]. apply IH.
Qed.

Lemma basename_loop_span (p : string) (k : nat) (m : bool) (e : option nat)
      (start E : nat) (i : nat) :
  (forall E, e = Some E ->
     m = false /\ forall i, (k <= i < E)%nat -> JsString.slashAt p i = false) ->
  path.basename_loop p k m e = (start, Some E) ->
  (start <= i < E)%nat -> JsString.slashAt p i = false.
Proof.
  revert m e; induction k as [|k IH]; intros m e Hinv; simpl.
  - intros [= <- ->] Hi. apply (proj2 (Hinv E eq_refl)). lia.
  - destruct (JsString.slashAt p k) eqn:Hk.
    + destruct m; simpl.
      * apply IH. intros E0 HE0. destruct (Hinv E0 HE0) as [Hm _]. discriminate.
      * intros [= <- ->] Hi. apply (proj2 (Hinv E eq_refl)). lia.
    + destruct e as [E0|].
      * apply IH. intros E1 [= <-]. destruct (Hinv E0 eq_refl) as [Hm Hspan].
        split; [exact Hm|]. intros i0 Hi0.
        destruct (Nat.eq_dec i0 k) as [->|Hne]; [exact Hk | apply Hspan; lia].
      * apply IH. intros E1 [= <-]. split; [reflexivity|]. intros i0 Hi0.
        replace i0 with k by lia. exact Hk.
Qed.

Lemma basename_noSlash (p : string) : noSlash (path.basename p).
Proof.
  intros j. unfold path.basename.
  destruct (path.basename_loop p (String.length p) true None) as [start [E|]] eqn:Hloop;
    [|now destruct j].
  unfold JsString.slashAt. rewrite get_take.
  destruct (j <? E - start)%nat eqn:Hj; [|reflexivity].
  apply Nat.ltb_lt in Hj. rewrite get_drop.
  apply (basename_loop_span p (String.length p) true None start E);
    [discriminate | exact Hloop | lia].
Qed.

Lemma includes_of_noSlash (s : string) :
  noSlash s -> JsString.includes s "/" = false.
Proof.
  intros Hs. destruct (JsString.includes s "/") eqn:Hinc; [|reflexivity].
  apply includes_iff in Hinc as (pre & post & ->).
  now rewrite <- (Hs (String.length pre)), slashAt_joint.
Qed.

(** X12.  The basename of a Node has no slash in it, so a Node can always
    be renamed to the basename it has: [rename] does not throw its own
    error and goes on to [move]. *)
Theorem basename_is_a_name (now : Date) (n : Node.t) :
  noSlash (Node.basename n)
  /\ JsString.includes (Node.basename n) "/" = false
  /\ Node.rename now (Node.basename n) n
     = Node.move now (path.dirname (Node.source n) ++ "/" ++ Node.basename n) n.
Proof.
  assert (Hb : noSlash (Node.basename n)) by apply basename_noSlash.
  assert (Hinc := includes_of_noSlash _ Hb).
  split; [exact Hb|]. split; [exact Hinc|].
  unfold Node.rename, MethodM.bind, MethodM.this. cbn beta iota.
  now rewrite Hinc.
Qed.

(** ** What the constructor of [FileAction] guarantees *)

(** X13.  A [FileAction] that was constructed keeps the data it was given,
    and these passed every check: the id is a string that is not empty,
    [displayName], [iconSvgInline] and [exec] are functions, the optional
    [title], [enabled], [execBatch], [inline] and [renderInline] are
    functions when they are there, [order] is a number when it is there,
    and [default] is falsy or one of the two values of [DefaultType]. *)
Theorem constructed_action_is_well_formed
        (data : FileActions.FileActionData) (a : FileActions.FileAction) :
  FileActions.new data = Returned a ->
  FileActions._action a = data
  /\ FileActions.id data = VString (FileActions.action_id a)
  /\ FileActions.action_id a <> ""
  /\ FileActions.displayName data = VFunction
  /\ FileActions.iconSvgInline data = VFunction
  /\ FileActions.exec data = VFunction
  /\ Forall (fun v => v = VUndefined \/ v = VFunction)
            [FileActions.title data; FileActions.enabled data;
             FileActions.execBatch data; FileActions.inline data;
             FileActions.renderInline data]
  /\ (FileActions.order data = VUndefined
      \/ exists x, FileActions.order data = VNumber x)
  /\ (FileActions.value_truthy (FileActions.default data) = false
      \/ FileActions.default data = VString "default"
      \/ FileActions.default data = VString "hidden").
Proof.
  unfold FileActions.new. intros Hnew.
  destruct (FileActions.validateAction data) as [[]|] eqn:Hvalid; [|discriminate].
  apply firstViolation_Returned in Hvalid.
  repeat match goal with
         | H : Forall _ (_ :: _) |- _ => inversion H; subst; clear H
         end.
  cbn [fst] in *.
  destruct data as [id dn ti ic en ex eb or de inl ri]; cbn [FileActions.id
    FileActions.displayName FileActions.title FileActions.iconSvgInline
    FileActions.enabled FileActions.exec FileActions.execBatch FileActions.order
    FileActions.default FileActions.inline FileActions.renderInline] in *.
  destruct id as [| | | |s| | |]; try discriminate.
  injection Hnew as <-. cbn [FileActions._action FileActions.action_id].
  assert (Hfun : forall v, FileActions.isFunction v = true -> v = VFunction)
    by (intros []; simpl; congruence).
  assert (Hopt : forall v, FileActions.absentOrFunction v = true ->
                           v = VUndefined \/ v = VFunction)
    by (intros []; simpl; intros; try discriminate; auto).
  assert (Hid : s <> "").
  { intros ->. match goal with H : negb ("" =? "") = true |- _ => discriminate H end. }
  split; [reflexivity|]. split; [reflexivity|]. split; [exact Hid|].
  split; [auto|]. split; [auto|]. split; [auto|].
  split; [repeat (apply Forall_cons; [apply Hopt; assumption|]); apply Forall_nil|].
  split.
  - destruct or; try discriminate; eauto.
  - assert (Hde : negb (FileActions.value_truthy de)
                  || match de with
                     | VString s => (s =? "default") || (s =? "hidden")
                     | _ => false
                     end = true) by assumption.
    apply orb_true_iff in Hde as [Hde|Hde].
    + left. now apply negb_true_iff.
    + right. destruct de; try discriminate.
      apply orb_true_iff in Hde as [Hde|Hde]; apply String.eqb_eq in Hde; subst; auto.
Qed.

Lemma constructed_action_is_well_formed_witness :
  FileActions.new (FileActions._action (Samples.action "delete" (VNumber (Int 5))))
  = Returned (Samples.action "delete" (VNumber (Int 5)))
  /\ FileActions.action_id (Samples.action "delete" (VNumber (Int 5))) <> "".
Proof.
  assert (H : FileActions.new (FileActions._action (Samples.action "delete" (VNumber (Int 5))))
              = Returned (Samples.action "delete" (VNumber (Int 5)))) by reflexivity.
  split; [exact H|].
  exact (proj1 (proj2 (proj2 (constructed_action_is_well_formed _ _ H)))).
Defined.
